(** * reading-tracker: the record store, its derived views and its mutations

    A shallow embedding of [src/index.tsx].  The file follows the source
    top-down: the helper functions, the streak walk
    [calculateConsecutiveDays], the two memoised views
    ([MonthlyLeaderboard]'s [monthlyStats], [MonthlyChart]'s [chartData]),
    and the handlers of [App] ([handleCheckIn], [handleAddUser],
    [handleRemoveUser]) with the two forms that call them.

    Modelling decisions, all of them visible in the definitions below:

    - A JavaScript object used as a map is an association list in
      insertion order, which is the order [for ... in], [Object.keys] and
      [Object.entries] enumerate string keys in.  A list stands for an
      object when its keys are pairwise distinct ([wfObject]).  Only own
      properties are modelled: a name that every object also inherits
      (such as [constructor] or [__proto__]) is treated like any other
      name.  Names that look like array indices, which JavaScript
      enumerates first, are not distinguished: their only effect is on
      the order of rows with equal totals, which no statement below
      depends on.
    - Chapter counts are integers ([Z]); an absent property is [None].
    - The per-date objects [records[date]] live in a heap of mutable
      cells, because [handleRemoveUser] deletes from them in place and
      two versions of the state can share them.  The top-level data
      object, the [users] array and the [records] object are only ever
      rebuilt ([...spread], [filter]), so they are plain values.
    - A [Date] is its time value, an integer number of milliseconds since
      the epoch (UTC).  The day/month/year arithmetic follows the
      ECMAScript specification (Day, DayFromYear, MonthFromTime, MakeDay,
      LocalTime, UTC).  The host's local offset from UTC, [tza], is a
      parameter and is constant (no daylight-saving change); the range
      limit of time values is not modelled.
    - [while (true)] is a loop with fuel; termination is proved
      separately. *)

From Stdlib Require Import ZArith List String Ascii Bool Lia Arith.
From Stdlib Require Import Permutation Sorted FinFun.
From Stdlib Require Import DecimalString DecimalN DecimalPos.
Import ListNotations.

Local Open Scope string_scope.
Local Open Scope Z_scope.

(* ================================================================== *)
(** * Objects used as maps *)

Definition dict (V : Type) : Type := list (string * V).

(** [o[k]] for an own property. *)
Fixpoint oget {V} (k : string) (o : dict V) : option V :=
  match o with
  | [] => None
  | (k', v) :: o' => if String.eqb k k' then Some v else oget k o'
  end.

(** [o[k] = v]: an existing property keeps its place, a new one goes last. *)
Fixpoint oset {V} (k : string) (v : V) (o : dict V) : dict V :=
  match o with
  | [] => [(k, v)]
  | (k', v') :: o' =>
      if String.eqb k k' then (k', v) :: o' else (k', v') :: oset k v o'
  end.

(** [delete o[k]]. *)
Definition odel {V} (k : string) (o : dict V) : dict V :=
  filter (fun p => negb (String.eqb k (fst p))) o.

(** [Object.keys(o)], also the order of [for (const k in o)]. *)
Definition okeys {V} (o : dict V) : list string := map fst o.

(** [o.hasOwnProperty(k)]. *)
Definition ohas {V} (k : string) (o : dict V) : bool :=
  match oget k o with Some _ => true | None => false end.

(** Truthiness of a possibly absent number: [undefined] and [0] are falsy. *)
Definition truthy (v : option Z) : bool :=
  match v with
  | Some c => negb (c =? 0)
  | None => false
  end.

(** [Array.prototype.includes] on an array of strings. *)
Definition includes (xs : list string) (x : string) : bool :=
  existsb (String.eqb x) xs.

(* ================================================================== *)
(** * Time values and the calendar (ECMAScript, Date objects) *)

Definition msPerDay : Z := 86400000.

Definition Day (t : Z) : Z := t / msPerDay.
Definition TimeWithinDay (t : Z) : Z := t mod msPerDay.

(** Number of the first day of year [y], counted from the epoch. *)
Definition DayFromYear (y : Z) : Z :=
  365 * (y - 1970) + (y - 1969) / 4 - (y - 1901) / 100 + (y - 1601) / 400.

Definition isLeap (y : Z) : bool :=
  (y mod 4 =? 0) && (negb (y mod 100 =? 0) || (y mod 400 =? 0)).

(** [InLeapYear], as 0 or 1. *)
Definition leapDays (y : Z) : Z := if isLeap y then 1 else 0.

Definition DaysInYear (y : Z) : Z := 365 + leapDays y.

(** The largest [y] with [DayFromYear y <= d]: an estimate from the mean
    length of a year, corrected by at most one year either way
    (lemma [YearFromDay_spec]). *)
Definition YearFromDay (d : Z) : Z :=
  let y0 := 1970 + (400 * d) / 146097 in
  if DayFromYear (y0 + 1) <=? d then y0 + 1
  else if DayFromYear y0 <=? d then y0
  else y0 - 1.

Definition DayWithinYear (d : Z) : Z := d - DayFromYear (YearFromDay d).

(** Day within the year on which month [m] (0 = January) starts; [l] is
    [InLeapYear].  [monthStart 12 l] is the length of the year. *)
Definition monthStart (m l : Z) : Z :=
  if m <=? 0 then 0
  else if m =? 1 then 31
  else if m =? 2 then 59 + l
  else if m =? 3 then 90 + l
  else if m =? 4 then 120 + l
  else if m =? 5 then 151 + l
  else if m =? 6 then 181 + l
  else if m =? 7 then 212 + l
  else if m =? 8 then 243 + l
  else if m =? 9 then 273 + l
  else if m =? 10 then 304 + l
  else if m =? 11 then 334 + l
  else 365 + l.

(** [MonthFromTime], on a day within the year. *)
Definition monthOfYearDay (dwy l : Z) : Z :=
  if dwy <? 31 then 0
  else if dwy <? 59 + l then 1
  else if dwy <? 90 + l then 2
  else if dwy <? 120 + l then 3
  else if dwy <? 151 + l then 4
  else if dwy <? 181 + l then 5
  else if dwy <? 212 + l then 6
  else if dwy <? 243 + l then 7
  else if dwy <? 273 + l then 8
  else if dwy <? 304 + l then 9
  else if dwy <? 334 + l then 10
  else 11.

Definition MonthFromDay (d : Z) : Z :=
  monthOfYearDay (DayWithinYear d) (leapDays (YearFromDay d)).

Definition DateFromDay (d : Z) : Z :=
  DayWithinYear d - monthStart (MonthFromDay d) (leapDays (YearFromDay d)) + 1.

Definition YearFromTime (t : Z) : Z := YearFromDay (Day t).
Definition MonthFromTime (t : Z) : Z := MonthFromDay (Day t).
Definition DateFromTime (t : Z) : Z := DateFromDay (Day t).

(** [MakeDay(year, month, date)]: the day number of the first of the
    month, plus [date - 1]; months outside 0..11 carry into the year. *)
Definition MakeDay (year month date : Z) : Z :=
  let ym := year + month / 12 in
  let mn := month mod 12 in
  DayFromYear ym + monthStart mn (leapDays ym) + date - 1.

Definition MakeDate (day time : Z) : Z := day * msPerDay + time.

(** Length of month [m] (0 = January) of year [y]. *)
Definition DaysInMonth (y m : Z) : Z :=
  monthStart (m + 1) (leapDays y) - monthStart m (leapDays y).

(** Local time and back, for a host whose offset from UTC is [tza] ms. *)
Definition LocalTime (tza t : Z) : Z := t + tza.
Definition UTC (tza t : Z) : Z := t - tza.

(** [d.getFullYear()], [d.getMonth()], [d.getDate()]: local-time fields. *)
Definition getFullYear (tza t : Z) : Z := YearFromTime (LocalTime tza t).
Definition getMonth (tza t : Z) : Z := MonthFromTime (LocalTime tza t).
Definition getDate (tza t : Z) : Z := DateFromTime (LocalTime tza t).

(** [d.setDate(dt)]: replaces the day of the month of the local time and
    keeps the time within the day. *)
Definition setDate (tza t dt : Z) : Z :=
  let lt := LocalTime tza t in
  UTC tza (MakeDate (MakeDay (YearFromTime lt) (MonthFromTime lt) dt)
                    (TimeWithinDay lt)).

(** [new Date(year, month, date)]: local midnight; a year from 0 to 99
    stands for 1900 + year. *)
Definition MakeFullYear (y : Z) : Z :=
  if (0 <=? y) && (y <=? 99) then 1900 + y else y.

Definition newDateYMD (tza y m dt : Z) : Z :=
  UTC tza (MakeDate (MakeDay (MakeFullYear y) m dt) 0).

(* ================================================================== *)
(** * Date strings *)

Definition decimal (n : Z) : string :=
  NilEmpty.string_of_uint (N.to_uint (Z.to_N n)).

Fixpoint zeros (n : nat) : string :=
  match n with
  | O => ""
  | S n' => String "0" (zeros n')
  end.

(** [s.padStart(w, "0")]. *)
Definition padStart (w : nat) (s : string) : string :=
  zeros (w - String.length s) ++ s.

(** A non-negative number in decimal, with at least [w] digits. *)
Definition pad (w : nat) (n : Z) : string := padStart w (decimal n).

(** The year of [toISOString]: four digits from 0 to 9999, otherwise a
    sign and six digits. *)
Definition yearString (y : Z) : string :=
  if (0 <=? y) && (y <=? 9999) then pad 4 y
  else (if y <? 0 then "-" else "+") ++ pad 6 (Z.abs y).

(** ["YYYY-MM-DD"] for year [y], month [m] (0 = January) and day [dt]. *)
Definition isoDate (y m dt : Z) : string :=
  yearString y ++ "-" ++ pad 2 (m + 1) ++ "-" ++ pad 2 dt.

(** ["YYYY-MM"]. *)
Definition isoMonth (y m : Z) : string :=
  yearString y ++ "-" ++ pad 2 (m + 1).

(** The date key of day number [d]. *)
Definition dateKeyOfDay (d : Z) : string :=
  isoDate (YearFromDay d) (MonthFromDay d) (DateFromDay d).

(** [d.toISOString().split('T')[0]]: the UTC date of the time value. *)
Definition toISODate (t : Z) : string := dateKeyOfDay (Day t).

(** A run of decimal digits as a number; [None] on any other character
    and on the empty string. *)
Definition parseDigits (s : string) : option Z :=
  match s with
  | "" => None
  | _ =>
      match NilEmpty.uint_of_string s with
      | Some u => Some (Z.of_N (N.of_uint u))
      | None => None
      end
  end.

(** [new Date(s)] for the date-only forms ["YYYY-MM"] and ["YYYY-MM-DD"]
    of the ECMAScript date-time format, read as UTC midnight.  [None] is
    the invalid date.  What an engine makes of any other string is left to
    the engine by the language specification; here it is invalid. *)
Definition parseDate (s : string) : option Z :=
  let n := String.length s in
  if (Nat.eqb n 7 || Nat.eqb n 10)%bool then
    match parseDigits (substring 0 4 s), parseDigits (substring 5 2 s) with
    | Some y, Some mo =>
        if negb (String.eqb (substring 4 1 s) "-") then None
        else if negb ((1 <=? mo) && (mo <=? 12)) then None
        else if Nat.eqb n 7 then Some (MakeDate (MakeDay y (mo - 1) 1) 0)
        else
          match parseDigits (substring 8 2 s) with
          | Some dt =>
              if negb (String.eqb (substring 7 1 s) "-") then None
              else if negb ((1 <=? dt) && (dt <=? DaysInMonth y (mo - 1)))
              then None
              else Some (MakeDate (MakeDay y (mo - 1) dt) 0)
          | None => None
          end
    | _, _ => None
    end
  else None.

(* ================================================================== *)
(** * Helper functions of the source *)

(** [getTodayDateString], with the clock reading [now] made explicit. *)
Definition getTodayDateString (now : Z) : string := toISODate now.

(** [getMonthFromDateString]: [dateString.substring(0, 7)]. *)
Definition getMonthFromDateString (dateString : string) : string :=
  substring 0 7 dateString.

(** The type [Records] of the source, as a reader sees it. *)
Definition DayRecord : Type := dict Z.
Definition Records : Type := dict DayRecord.

(** [records[dateStr] && records[dateStr][user]], as a condition. *)
Definition checkedIn (records : Records) (dateStr user : string) : bool :=
  match oget dateStr records with
  | Some rec => truthy (oget user rec)
  | None => false
  end.

(** The [while (true)] loop of [calculateConsecutiveDays]; [d] is the
    time value of the [Date] object, [None] is fuel running out. *)
Fixpoint streakLoop (fuel : nat) (tza : Z) (user : string)
    (records : Records) (d : Z) (count : nat) : option nat :=
  match fuel with
  | O => None
  | S fuel' =>
      let dateStr := toISODate d in
      if checkedIn records dateStr user
      then streakLoop fuel' tza user records
             (setDate tza d (getDate tza d - 1)) (S count)
      else Some count
  end.

Definition calculateConsecutiveDays (fuel : nat) (tza now : Z)
    (user : string) (records : Records) : option nat :=
  streakLoop fuel tza user records now 0%nat.

(* ================================================================== *)
(** * [MonthlyLeaderboard]: the memoised [monthlyStats] *)

Record Row : Type := mkRow {
  row_user : string;
  row_total : Z;
  row_consecutiveDays : nat
}.

(** [users.forEach(user => totals[user] = 0)] on [totals = {}]. *)
Definition initTotals (users : list string) : dict Z :=
  fold_left (fun totals user => oset user 0 totals) users [].

(** One step of the inner loop [for (const user in records[date])]: a
    name that is a key of [totals] has the day's count added to its
    total.  Both lookups succeed there ([user] is a key of both
    objects). *)
Definition addUser (rec : DayRecord) (totals : dict Z) (user : string)
    : dict Z :=
  if ohas user totals then
    match oget user totals, oget user rec with
    | Some t, Some c => oset user (t + c) totals
    | _, _ => totals
    end
  else totals.

Definition addDay (rec : DayRecord) (totals : dict Z) : dict Z :=
  fold_left (addUser rec) (okeys rec) totals.

(** One step of the outer loop [for (const date in records)]. *)
Definition addDate (records : Records) (currentMonth : string)
    (totals : dict Z) (date : string) : dict Z :=
  if String.eqb (getMonthFromDateString date) currentMonth then
    match oget date records with
    | Some rec => addDay rec totals
    | None => totals
    end
  else totals.

Definition addMonth (records : Records) (currentMonth : string)
    (totals : dict Z) : dict Z :=
  fold_left (addDate records currentMonth) (okeys records) totals.

(** [Object.entries(totals).map(...)]: one row per key of [totals], each
    with the streak of that user. *)
Fixpoint rowsOf (fuel : nat) (tza now : Z) (records : Records)
    (totals : dict Z) : option (list Row) :=
  match totals with
  | [] => Some []
  | (user, total) :: totals' =>
      match calculateConsecutiveDays fuel tza now user records,
            rowsOf fuel tza now records totals' with
      | Some n, Some rows => Some (mkRow user total n :: rows)
      | _, _ => None
      end
  end.

(** [Array.prototype.sort] with a comparator: a stable insertion sort.
    [x] is put in front of the first element it does not have to follow,
    so elements that compare equal keep their order. *)
Fixpoint insertBy {A} (cmp : A -> A -> Z) (x : A) (l : list A) : list A :=
  match l with
  | [] => [x]
  | y :: l' => if cmp x y <=? 0 then x :: l else y :: insertBy cmp x l'
  end.

Definition sortBy {A} (cmp : A -> A -> Z) (l : list A) : list A :=
  fold_right (insertBy cmp) [] l.

(** The comparator [(a, b) => b.total - a.total]. *)
Definition byTotalDesc (a b : Row) : Z := row_total b - row_total a.

(** [monthlyStats] for the month [currentMonth]. *)
Definition monthlyStatsFor (fuel : nat) (tza now : Z) (users : list string)
    (records : Records) (currentMonth : string) : option (list Row) :=
  let totals := addMonth records currentMonth (initTotals users) in
  match rowsOf fuel tza now records totals with
  | Some rows => Some (sortBy byTotalDesc rows)
  | None => None
  end.

(** [monthlyStats], with [currentMonth] taken from the clock as in
    [MonthlyLeaderboard]. *)
Definition monthlyStats (fuel : nat) (tza now : Z) (users : list string)
    (records : Records) : option (list Row) :=
  monthlyStatsFor fuel tza now users records
    (getMonthFromDateString (getTodayDateString now)).

(* ================================================================== *)
(** * [MonthlyChart]: the memoised [chartData] *)

(** A number that may be [NaN] (the day of an invalid date). *)
Inductive num : Type :=
  | Num (z : Z)
  | NaN.

Definition num_eqb (a b : num) : bool :=
  match a, b with
  | Num x, Num y => x =? y
  | NaN, NaN => true
  | _, _ => false
  end.

(** [dailyCounts], an object keyed by day numbers: the keys are the
    positive integers [getDate] returns, or ["NaN"].  Integer keys are
    enumerated in ascending order, before ["NaN"]. *)
Definition counts : Type := list (num * Z).

Fixpoint nhas (k : num) (o : counts) : bool :=
  match o with
  | [] => false
  | (k', _) :: o' => num_eqb k k' || nhas k o'
  end.

Fixpoint nreplace (k : num) (v : Z) (o : counts) : counts :=
  match o with
  | [] => []
  | (k', v') :: o' =>
      if num_eqb k k' then (k', v) :: o' else (k', v') :: nreplace k v o'
  end.

Fixpoint ninsert (k : num) (v : Z) (o : counts) : counts :=
  match o with
  | [] => [(k, v)]
  | (k', v') :: o' =>
      match k, k' with
      | Num z, Num z' =>
          if z <? z' then (k, v) :: o else (k', v') :: ninsert k v o'
      | Num _, NaN => (k, v) :: o
      | NaN, _ => (k', v') :: ninsert k v o'
      end
  end.

(** [dailyCounts[k] = v]. *)
Definition nset (k : num) (v : Z) (o : counts) : counts :=
  if nhas k o then nreplace k v o else ninsert k v o.

Record Point : Type := mkPoint {
  pt_day : num;
  pt_count : Z
}.

(** [new Date(new Date(currentMonth).getFullYear(),
              new Date(currentMonth).getMonth() + 1, 0).getDate()]. *)
Definition chartDaysInMonth (tza : Z) (currentMonth : string) : num :=
  match parseDate currentMonth with
  | Some t =>
      Num (getDate tza
             (newDateYMD tza (getFullYear tza t) (getMonth tza t + 1) 0))
  | None => NaN
  end.

(** [for (let i = 1; i <= daysInMonth; i++) dailyCounts[i] = 0] on
    [dailyCounts = {}]; the comparison with [NaN] is false, so the body
    never runs then. *)
Definition initCounts (daysInMonth : num) : counts :=
  match daysInMonth with
  | Num n =>
      fold_left (fun dailyCounts i => nset (Num (Z.of_nat i)) 0 dailyCounts)
                (seq 1 (Z.to_nat n)) []
  | NaN => []
  end.

(** [new Date(date).getDate()]. *)
Definition dayOfDateString (tza : Z) (date : string) : num :=
  match parseDate date with
  | Some t => Num (getDate tza t)
  | None => NaN
  end.

(** One step of the loop [for (const date in records)] of [chartData]:
    the number of keys of [records[date]] is stored under the day of the
    month of [date]. *)
Definition countDate (tza : Z) (records : Records) (currentMonth : string)
    (dailyCounts : counts) (date : string) : counts :=
  if String.eqb (getMonthFromDateString date) currentMonth then
    match oget date records with
    | Some rec =>
        nset (dayOfDateString tza date)
             (Z.of_nat (List.length (okeys rec))) dailyCounts
    | None => dailyCounts
    end
  else dailyCounts.

Definition fillCounts (tza : Z) (records : Records) (currentMonth : string)
    (dailyCounts : counts) : counts :=
  fold_left (countDate tza records currentMonth) (okeys records) dailyCounts.

(** [chartData] for the month [currentMonth]. *)
Definition chartDataFor (tza : Z) (records : Records)
    (currentMonth : string) : list Point :=
  map (fun p => mkPoint (fst p) (snd p))
      (fillCounts tza records currentMonth
         (initCounts (chartDaysInMonth tza currentMonth))).

(** [chartData], with [currentMonth] taken from the clock. *)
Definition chartData (tza now : Z) (records : Records) : list Point :=
  chartDataFor tza records (getMonthFromDateString (getTodayDateString now)).

(* ================================================================== *)
(** * [App]: the state and its handlers *)

(** A reference to a per-date object. *)
Definition loc : Type := nat.

(** The heap of per-date objects. *)
Definition Heap : Type := list DayRecord.

(** The value held by [useState]: [{ users, records }], where
    [records[date]] is a reference into the heap. *)
Record Data : Type := mkData {
  users : list string;
  records : dict loc
}.

Definition State : Type := (Heap * Data)%type.

Definition cell (h : Heap) (l : loc) : DayRecord := nth l h [].

Fixpoint update {A} (l : nat) (v : A) (h : list A) : list A :=
  match h, l with
  | [], _ => []
  | _ :: h', O => v :: h'
  | x :: h', S l' => x :: update l' v h'
  end.

(** What a reader of [data.records] sees in heap [h]. *)
Definition deref (h : Heap) (r : dict loc) : Records :=
  map (fun p => (fst p, cell h (snd p))) r.

Definition view (st : State) : Records := deref (fst st) (records (snd st)).

(** The three [alert] calls of the source. *)
Inductive Alert : Type :=
  | AlertSelectMemberAndChapters   (* CheckInForm.handleSubmit *)
  | AlertValidChapters             (* DailyReport.handleSave *)
  | AlertMemberExists (name : string).  (* App.handleAddUser *)

(** [handleCheckIn]: a new per-date object, spread from the old one for
    today (or from nothing) and then given [user]; a new [records] object
    that points to it. *)
Definition handleCheckIn (now : Z) (user : string) (chapters : Z)
    (st : State) : State :=
  let '(h, prevData) := st in
  let today := getTodayDateString now in
  let prevToday :=
    match oget today (records prevData) with
    | Some l => cell h l
    | None => []
    end in
  let l' := List.length h in
  ((h ++ [oset user chapters prevToday])%list,
   mkData (users prevData) (oset today l' (records prevData))).

(** [handleAddUser]. *)
Definition handleAddUser (newUser : string) (st : State)
    : option Alert * State :=
  let '(h, prevData) := st in
  if includes (users prevData) newUser
  then (Some (AlertMemberExists newUser), st)
  else (None, (h, mkData (users prevData ++ [newUser])%list (records prevData))).

(** One step of the [forEach] of [handleRemoveUser]:
    [if (newRecords[date][userToRemove]) delete newRecords[date][userToRemove]],
    a deletion in the object that [newRecords[date]] refers to. *)
Definition removeFromDay (newRecords : dict loc) (userToRemove : string)
    (h : Heap) (date : string) : Heap :=
  match oget date newRecords with
  | Some l =>
      if truthy (oget userToRemove (cell h l))
      then update l (odel userToRemove (cell h l)) h
      else h
  | None => h
  end.

(** [handleRemoveUser]; [confirmed] is the answer to [window.confirm].
    [newRecords = { ...prevData.records }] copies the references. *)
Definition handleRemoveUser (confirmed : bool) (userToRemove : string)
    (st : State) : State :=
  if confirmed then
    let '(h, prevData) := st in
    let newUsers :=
      filter (fun u => negb (String.eqb u userToRemove)) (users prevData) in
    let newRecords := records prevData in
    (fold_left (removeFromDay newRecords userToRemove) (okeys newRecords) h,
     mkData newUsers newRecords)
  else st.

(** [CheckInForm]'s [handleSubmit]; [chapters] is the state of the number
    input, [None] for the empty string. *)
Definition CheckInForm_handleSubmit (now : Z) (selectedUser : string)
    (chapters : option Z) (st : State) : option Alert * State :=
  match chapters with
  | Some c =>
      if String.eqb selectedUser "" || (c <=? 0)
      then (Some AlertSelectMemberAndChapters, st)
      else (None, handleCheckIn now selectedUser c st)
  | None => (Some AlertSelectMemberAndChapters, st)
  end.

(** [DailyReport]'s [handleSave]; the empty input converts to 0. *)
Definition DailyReport_handleSave (now : Z)
    (editingState : option (string * option Z)) (st : State)
    : option Alert * State :=
  match editingState with
  | Some (user, chapters) =>
      let c := match chapters with Some c => c | None => 0 end in
      if 0 <? c
      then (None, handleCheckIn now user c st)
      else (Some AlertValidChapters, st)
  | None => (Some AlertValidChapters, st)
  end.

(* ================================================================== *)
(** * Vocabulary of the statements *)

(** Pairwise distinct names; [wfObject] says that an association list
    stands for an object. *)
Fixpoint distinct (l : list string) : bool :=
  match l with
  | [] => true
  | x :: l' => negb (includes l' x) && distinct l'
  end.

Definition wfObject {V} (o : dict V) : bool := distinct (okeys o).

Definition wfRecords (r : Records) : bool :=
  wfObject r && forallb (fun p => wfObject (snd p)) r.

(** Every reference of [records] points into the heap. *)
Definition closed (st : State) : bool :=
  forallb (fun p => Nat.ltb (snd p) (List.length (fst st))) (records (snd st)).

(** A state whose lists stand for objects and whose references point
    into the heap. *)
Definition wfState (st : State) : bool := wfRecords (view st) && closed st.

(** Every stored count is truthy, as it is when counts are at least 1. *)
Definition countsNonzero (r : Records) : bool :=
  forallb (fun p => forallb (fun q => negb (snd q =? 0)) (snd p)) r.

(** What the deletion step of [handleRemoveUser] makes of one per-date
    object. *)
Definition scrub (userToRemove : string) (rec : DayRecord) : DayRecord :=
  if truthy (oget userToRemove rec) then odel userToRemove rec else rec.

(** The date [date] of [r] refers to cell [l]. *)
Definition refersTo (r : dict loc) (l : loc) (date : string) : bool :=
  match oget date r with
  | Some l' => Nat.eqb l' l
  | None => false
  end.

(** [entries[date][member]]. *)
Definition entry (r : Records) (date member : string) : option Z :=
  match oget date r with
  | Some rec => oget member rec
  | None => None
  end.



(** The date key of the calendar day [k] days before the day of [now];
    [dayBefore now 0] is [getTodayDateString now]. *)
Definition dayBefore (now : Z) (k : nat) : string :=
  dateKeyOfDay (Day now - Z.of_nat k).


(** [entries[date][member]], 0 when absent. *)
Definition countOf (rec : DayRecord) (u : string) : Z :=
  match oget u rec with Some c => c | None => 0 end.

(** Rows in descending order of total. *)
Definition descending (a b : Row) : Prop := row_total b <= row_total a.


(** The number of names with an entry on a date. *)
Definition checkedInCount (r : Records) (date : string) : Z :=
  match oget date r with
  | Some rec => Z.of_nat (List.length rec)
  | None => 0
  end.

(** The series that [daily_activity] is to return for month [m]
    (0 = January) of year [y]: one point per day of the month, each with
    the number of names that have an entry on that day. *)
Definition dailyActivity (r : Records) (y m : Z) : list Point :=
  map (fun i => mkPoint (Num (Z.of_nat i))
                        (checkedInCount r (isoDate y m (Z.of_nat i))))
      (seq 1 (Z.to_nat (DaysInMonth y m))).

(** A [dailyCounts] object with the keys 1 to [n]. *)
Definition dayTable (n : nat) (g : Z -> Z) : counts :=
  map (fun i => (Num (Z.of_nat i), g (Z.of_nat i))) (seq 1 n).

(** A date key as the program writes them: ten characters that
    [new Date] reads and [toISOString] gives back. *)
Definition isDateKey (k : string) : bool :=
  match parseDate k with
  | Some t => Nat.eqb (String.length k) 10 && String.eqb (toISODate t) k
  | None => false
  end.



(** Reading a year back from [yearString]; used to tell date keys apart. *)
Definition yearOfString (s : string) : option Z :=
  match s with
  | String "-" r => option_map Z.opp (parseDigits r)
  | String "+" r => parseDigits r
  | _ => parseDigits s
  end.

Definition isLen2 (s : string) : bool :=
  match s with
  | String _ (String _ "") => true
  | _ => false
  end.

Definition isLen4 (s : string) : bool :=
  match s with
  | String _ (String _ (String _ (String _ ""))) => true
  | _ => false
  end.

Definition year4_ok (y : Z) : bool :=
  isLen4 (pad 4 y) &&
  match yearOfString (pad 4 y) with Some z => z =? y | None => false end.

(* ================================================================== *)
(** * States used in the examples *)

(** One member with one entry. *)
Definition stOneEntry : State :=
  ([[("A", 3)]], mkData ["A"] [("2024-05-01", 0%nat)]).

(** One member whose only entry holds the count 0 (a count that the forms
    refuse, but that stored data can contain). *)
Definition stZeroEntry : State :=
  ([[("A", 0)]], mkData ["A"] [("2024-05-01", 0%nat)]).

(** Two members, entries on two days. *)
Definition stTwoDays : State :=
  ([[("A", 3)]; [("A", 2); ("B", 1)]],
   mkData ["A"; "B"] [("2024-05-14", 0%nat); ("2024-05-15", 1%nat)]).



(** Records over three days, two of them consecutive. *)
Definition recThreeDays : Records :=
  [("2024-05-15", [("A", 3)]); ("2024-05-14", [("A", 1)]);
   ("2024-05-12", [("A", 4)])].

(** Records over two months. *)
Definition recTwoMonths : Records :=
  [("2024-05-01", [("A", 3)]); ("2024-05-02", [("A", 2); ("B", 1)]);
   ("2024-04-30", [("B", 9)])].

(** Five hours behind UTC, in milliseconds. *)
Definition utcMinus5 : Z := -18000000.

(** Noon (UTC) on 2024-05-15, and later that day. *)
Definition noon_2024_05_15 : Z := 1715774400000.
Definition evening_2024_05_15 : Z := 1715799600000.

(* ================================================================== *)
(** * The forms and the wiring of [App] *)

(** [CheckInForm]: the initial selection, [useState(users[0] || "")]. *)
Definition CheckInForm_initialUser (users : list string) : string :=
  hd "" users.

(** [CheckInForm]'s effect, run when [users] or the selection changes:
    [if (!selectedUser && users.length > 0) setSelectedUser(users[0])]. *)
Definition CheckInForm_effect (users : list string) (selectedUser : string)
    : string :=
  if String.eqb selectedUser "" && negb (Nat.eqb (List.length users) 0)
  then hd "" users
  else selectedUser.

(** [DailyReport]: [records[today] || {}]. *)
Definition DailyReport_todaysRecords (now : Z) (records : Records)
    : DayRecord :=
  match oget (getTodayDateString now) records with
  | Some rec => rec
  | None => []
  end.



(** [DailyReport]'s [handleStartEdit]: the count goes into the input as a
    string and is read back as the same number. *)
Definition handleStartEdit (user : string) (chapters : Z)
    : option (string * option Z) :=
  Some (user, Some chapters).

Definition handleCancelEdit : option (string * option Z) := None.

(** [handleSave] with the editing state it leaves: closed after a save,
    unchanged after the alert. *)
Definition DailyReport_save (now : Z)
    (editingState : option (string * option Z)) (st : State)
    : option Alert * option (string * option Z) * State :=
  match DailyReport_handleSave now editingState st with
  | (None, st') => (None, None, st')
  | (Some a, st') => (Some a, editingState, st')
  end.

(** What the user can do, with the data each form passes on: [App] wires
    [CheckInForm] and [DailyReport]'s save to [handleCheckIn],
    [DailyReport]'s delete button to [handleRemoveUser] and
    [UserManagement] to [handleAddUser] (with the trimmed, non-empty
    name). *)
Inductive Event : Type :=
  | SubmitCheckIn (selectedUser : string) (chapters : option Z)
  | SaveEdit (editingState : option (string * option Z))
  | AddUser (newUser : string)
  | RemoveUser (userToRemove : string) (confirmed : bool).

(** One event at clock reading [now]. *)
Definition dispatch (now : Z) (ev : Event) (st : State)
    : option Alert * State :=
  match ev with
  | SubmitCheckIn selectedUser chapters =>
      CheckInForm_handleSubmit now selectedUser chapters st
  | SaveEdit editingState => DailyReport_handleSave now editingState st
  | AddUser newUser => handleAddUser newUser st
  | RemoveUser userToRemove confirmed =>
      (None, handleRemoveUser confirmed userToRemove st)
  end.

(** A sequence of events, each with its clock reading. *)
Definition run (evs : list (Z * Event)) (st : State) : State :=
  fold_left (fun st e => snd (dispatch (fst e) (snd e) st)) evs st.


(** Every entry belongs to a member. *)
Definition membersOnly (users : list string) (r : Records) : bool :=
  forallb (fun p => forallb (fun q => includes users (fst q)) (snd p)) r.

(** The year of the clock reading is one that date keys write with four
    digits. *)
Definition fourDigitYear (now : Z) : bool :=
  (0 <=? YearFromTime now) && (YearFromTime now <=? 9999).

(** The member of an event that checks in, if it does. *)
Definition checksIn (ev : Event) : option string :=
  match ev with
  | SubmitCheckIn selectedUser _ => Some selectedUser
  | SaveEdit (Some (user, _)) => Some user
  | _ => None
  end.

(** A sequence of events on 2024-05-15. *)
Definition evsSample : list (Z * Event) :=
  [(noon_2024_05_15, SubmitCheckIn "B" (Some 4));
   (noon_2024_05_15, AddUser "C");
   (evening_2024_05_15, RemoveUser "A" true);
   (evening_2024_05_15, SaveEdit (Some ("B", Some 2)))].

(* ================================================================== *)
(** * [App]: [handleExportCSV] *)

(** The comparison of [Array.prototype.sort] without a comparator:
    strings by their code units.  Strings are sequences of bytes here; on
    the ASCII strings that the application writes as date keys the two
    orders are the same. *)
Definition compareStrings (a b : string) : Z :=
  match String.compare a b with
  | Lt => -1
  | Eq => 0
  | Gt => 1
  end.

Definition CRLF : string := String "013" (String "010" "").

(** The byte order mark U+FEFF, in UTF-8 as the other literals. *)
Definition BOM : string := String "239" (String "187" (String "191" "")).

Definition dquote : string := String "034" "".

(** The initial value of [csvContent]. *)
Definition csvHeader : string :=
  "data:text/csv;charset=utf-8," ++ BOM ++ "Date,User,Chapters" ++ CRLF.

(** An integer as [Array.prototype.join] writes it. *)
Definition numberString (n : Z) : string :=
  if n <? 0 then "-" ++ decimal (- n) else decimal n.

(** [[date, `"${user}"`, records[date][user]].join(',')]. *)
Definition csvRow (date user : string) (chapters : Z) : string :=
  date ++ "," ++ (dquote ++ user ++ dquote) ++ "," ++ numberString chapters.

(** The inner loop, [for (const user in records[date])]. *)
Definition exportDay (date : string) (rec : DayRecord) (csvContent : string)
    : string :=
  fold_left (fun csv p => csv ++ (csvRow date (fst p) (snd p) ++ CRLF))
            rec csvContent.

(** [csvContent] at the end of the loops of [handleExportCSV], before
    [encodeURI]. *)
Definition handleExportCSV_csvContent (now : Z) (records : Records)
    : string :=
  let currentMonth := getMonthFromDateString (getTodayDateString now) in
  let sortedDates := sortBy compareStrings (okeys records) in
  fold_left
    (fun csv date =>
       if String.eqb (getMonthFromDateString date) currentMonth
       then match oget date records with
            | Some rec => exportDay date rec csv
            | None => csv
            end
       else csv)
    sortedDates csvHeader.

(** The lines of a list of entries [(date, user, chapters)]. *)
Definition csvLines (rows : list (string * string * Z)) : string :=
  fold_right
    (fun e s => (csvRow (fst (fst e)) (snd (fst e)) (snd e) ++ CRLF) ++ s)
    "" rows.

(** The entries of one date of a store. *)
Definition entriesOn (records : Records) (date : string)
    : list (string * string * Z) :=
  match oget date records with
  | Some rec => map (fun p => (date, fst p, snd p)) rec
  | None => []
  end.

(** The entries of a month, date by date in the order of the date keys as
    strings. *)
Definition entriesOfMonth (records : Records) (month : string)
    : list (string * string * Z) :=
  flat_map
    (fun date =>
       if String.eqb (getMonthFromDateString date) month
       then entriesOn records date
       else [])
    (sortBy compareStrings (okeys records)).

(** Entries in ascending order of their date keys. *)
Definition byDate (a b : string * string * Z) : Prop :=
  String.leb (fst (fst a)) (fst (fst b)) = true.

(* ================================================================== *)
(** * The data layer: [getInitialData] *)

(** The values of [JSON.parse].  The validation of [getInitialData] does
    not look at numbers; the application stores integers. *)
#[local] Unset Elimination Schemes.

Inductive json : Type :=
  | JNull
  | JBool (b : bool)
  | JNum (n : Z)
  | JStr (s : string)
  | JArr (items : list json)
  | JObj (props : dict json).

#[local] Set Elimination Schemes.

(** What the [try] block finds: [localStorage.getItem] throws, returns
    [null] or the empty string, or returns a text that [JSON.parse]
    rejects or parses. *)
Inductive Stored : Type :=
  | StorageError
  | NoItem
  | EmptyItem
  | ParseError
  | Item (data : json).

(** [data.users] and [data.records] of a value that is not [null]:
    [None] is [undefined]. *)
Definition prop (k : string) (data : json) : option json :=
  match data with
  | JObj props => oget k props
  | _ => None
  end.

Definition Array_isArray (v : option json) : bool :=
  match v with
  | Some (JArr _) => true
  | _ => false
  end.

(** [typeof v === 'object']. *)
Definition typeofObject (v : option json) : bool :=
  match v with
  | Some JNull | Some (JArr _) | Some (JObj _) => true
  | _ => false
  end.

Definition defaultData : json :=
  JObj [("users", JArr [JStr "爱丽丝"; JStr "鲍勃"; JStr "查理";
                        JStr "黛娜"; JStr "伊芙"]);
        ("records", JObj [])].

(** [getInitialData].  Reading a property of [null] throws, and the
    [catch] falls through to the default. *)
Definition getInitialData (stored : Stored) : json :=
  match stored with
  | Item JNull => defaultData
  | Item data =>
      if Array_isArray (prop "users" data)
         && typeofObject (prop "records" data)
      then data
      else defaultData
  | _ => defaultData
  end.

(** What [JSON.stringify(data)] writes for the state of [App], as
    [JSON.parse] reads it back. *)
Definition dataJSON (users : list string) (records : Records) : json :=
  JObj [("users", JArr (map JStr users));
        ("records",
         JObj (map (fun p =>
                      (fst p,
                       JObj (map (fun q => (fst q, JNum (snd q))) (snd p))))
                   records))].

(* ================================================================== *)
(** * Facts about objects *)

Section ObjectFacts.

Context {V : Type}.
Implicit Types (o : dict V) (k : string) (v : V).

Lemma includes_In (l : list string) (x : string) :
  includes l x = true <-> In x l.
Proof.
  unfold includes. rewrite existsb_exists. split.
  - intros [y [I E]]. apply String.eqb_eq in E. subst. exact I.
  - intros I. exists x. split; auto. apply String.eqb_refl.
Qed.

Lemma includes_not_In (l : list string) (x : string) :
  includes l x = false <-> ~ In x l.
Proof.
  rewrite <- includes_In. destruct (includes l x); intuition congruence.
Qed.

Lemma distinct_NoDup (l : list string) : distinct l = true <-> NoDup l.
Proof.
  induction l as [| x l IH]; simpl.
  - split; auto using NoDup_nil.
  - rewrite andb_true_iff, negb_true_iff, includes_not_In, IH. split.
    + intros [N D]. constructor; auto.
    + intros N. inversion N; auto.
Qed.

Lemma oget_oset_eq k v o : oget k (oset k v o) = Some v.
Proof.
  induction o as [| [k' v'] o IH]; simpl.
  - now rewrite String.eqb_refl.
  - destruct (String.eqb k k') eqn:E; simpl; rewrite E; auto.
Qed.

Lemma oget_oset_neq k k' v o : k <> k' -> oget k (oset k' v o) = oget k o.
Proof.
  intros N. induction o as [| [k2 v2] o IH]; simpl.
  - apply String.eqb_neq in N. now rewrite N.
  - destruct (String.eqb k' k2) eqn:E; simpl.
    + apply String.eqb_eq in E. subst k2.
      apply String.eqb_neq in N. now rewrite N.
    + rewrite IH. reflexivity.
Qed.

Lemma oget_Some_In k v o : oget k o = Some v -> In (k, v) o.
Proof.
  induction o as [| [k' v'] o IH]; simpl; [discriminate |].
  destruct (String.eqb_spec k k') as [-> | N].
  - intros [= ->]. auto.
  - auto.
Qed.

Lemma oget_None k o : oget k o = None <-> ~ In k (okeys o).
Proof.
  induction o as [| [k' v'] o IH]; simpl.
  - tauto.
  - destruct (String.eqb_spec k k') as [-> | N].
    + split; [discriminate | intros H; exfalso; auto].
    + rewrite IH. intuition congruence.
Qed.

Lemma oget_In_keys k v o : oget k o = Some v -> In k (okeys o).
Proof.
  intros H. apply oget_Some_In in H. apply (in_map fst) in H. exact H.
Qed.

Lemma ohas_In k o : ohas k o = true <-> In k (okeys o).
Proof.
  unfold ohas. pose proof (oget_None k o) as N.
  destruct (oget k o) eqn:E.
  - split; auto. intros _. eapply oget_In_keys; eauto.
  - split; [discriminate |]. intros I. exfalso. apply N; auto.
Qed.

Lemma oget_of_In k v o : NoDup (okeys o) -> In (k, v) o -> oget k o = Some v.
Proof.
  induction o as [| [k' v'] o IH]; simpl; [tauto |].
  intros N [E | I].
  - injection E as -> ->. now rewrite String.eqb_refl.
  - inversion N as [| ? ? N1 N2]; subst.
    destruct (String.eqb_spec k k') as [-> | _]; auto.
    exfalso. apply N1. apply (in_map fst) in I. exact I.
Qed.

Lemma okeys_oset_in k v o : In k (okeys o) -> okeys (oset k v o) = okeys o.
Proof.
  induction o as [| [k' v'] o IH]; simpl; [tauto |].
  destruct (String.eqb_spec k k') as [-> | N]; simpl; auto.
  intros [E | I]; [congruence |]. now rewrite IH.
Qed.

Lemma okeys_oset_notin k v o :
  ~ In k (okeys o) -> okeys (oset k v o) = (okeys o ++ [k])%list.
Proof.
  induction o as [| [k' v'] o IH]; simpl; auto.
  destruct (String.eqb_spec k k') as [-> | N]; simpl.
  - intros H. exfalso. auto.
  - intros H. rewrite IH; auto.
Qed.

Lemma okeys_oset_iff k k' v o :
  In k (okeys (oset k' v o)) <-> k = k' \/ In k (okeys o).
Proof.
  destruct (in_dec string_dec k' (okeys o)) as [I | N].
  - rewrite okeys_oset_in by auto. intuition congruence.
  - rewrite okeys_oset_notin, in_app_iff by auto. simpl. intuition.
Qed.

Lemma NoDup_okeys_oset k v o : NoDup (okeys o) -> NoDup (okeys (oset k v o)).
Proof.
  intros N. destruct (in_dec string_dec k (okeys o)) as [I | I].
  - now rewrite okeys_oset_in.
  - rewrite okeys_oset_notin by auto.
    apply NoDup_app; [exact N | repeat constructor; simpl; tauto |].
    intros x Hx [<- | []]. auto.
Qed.

Lemma okeys_odel k o : okeys (odel k o) =
  filter (fun k' => negb (String.eqb k k')) (okeys o).
Proof.
  unfold odel, okeys. induction o as [| [k' v'] o IH]; simpl; auto.
  destruct (String.eqb k k'); simpl; now rewrite IH.
Qed.

Lemma not_In_okeys_odel k o : ~ In k (okeys (odel k o)).
Proof.
  rewrite okeys_odel, filter_In. intros [_ H].
  now rewrite String.eqb_refl in H.
Qed.

End ObjectFacts.

(* ================================================================== *)
(** * Facts about the calendar *)

Section Calendar.

Lemma leapDays_01 y : leapDays y = 0 \/ leapDays y = 1.
Proof. unfold leapDays. destruct (isLeap y); auto. Qed.

Lemma DayFromYear_succ y : DayFromYear (y + 1) = DayFromYear y + DaysInYear y.
Proof.
  unfold DayFromYear, DaysInYear, leapDays, isLeap.
  destruct (Z.eqb_spec (y mod 4) 0); destruct (Z.eqb_spec (y mod 100) 0);
    destruct (Z.eqb_spec (y mod 400) 0); cbn [andb orb negb];
    Z.div_mod_to_equations; lia.
Qed.

Lemma DayFromYear_mono a b : a <= b -> DayFromYear a <= DayFromYear b.
Proof.
  unfold DayFromYear. intros. Z.div_mod_to_equations. lia.
Qed.

Lemma YearFromDay_spec d :
  DayFromYear (YearFromDay d) <= d < DayFromYear (YearFromDay d + 1).
Proof.
  unfold YearFromDay.
  set (y0 := 1970 + 400 * d / 146097).
  assert (L : DayFromYear (y0 - 1) <= d).
  { unfold DayFromYear, y0. Z.div_mod_to_equations. lia. }
  assert (U : d < DayFromYear (y0 + 2)).
  { unfold DayFromYear, y0. Z.div_mod_to_equations. lia. }
  destruct (DayFromYear (y0 + 1) <=? d) eqn:E1.
  - apply Z.leb_le in E1. replace (y0 + 1 + 1) with (y0 + 2) by lia. lia.
  - apply Z.leb_gt in E1.
    destruct (DayFromYear y0 <=? d) eqn:E0.
    + apply Z.leb_le in E0. lia.
    + apply Z.leb_gt in E0. replace (y0 - 1 + 1) with y0 by lia. lia.
Qed.

(** The year of a day is determined by the interval it falls in. *)
Lemma YearFromDay_unique d y :
  DayFromYear y <= d < DayFromYear (y + 1) -> YearFromDay d = y.
Proof.
  intros H. pose proof (YearFromDay_spec d) as S.
  destruct (Z.lt_trichotomy (YearFromDay d) y) as [L | [E | G]]; auto.
  - pose proof (DayFromYear_mono (YearFromDay d + 1) y ltac:(lia)). lia.
  - pose proof (DayFromYear_mono (y + 1) (YearFromDay d) ltac:(lia)). lia.
Qed.

Lemma DayWithinYear_range d :
  0 <= DayWithinYear d < DaysInYear (YearFromDay d).
Proof.
  unfold DayWithinYear. pose proof (YearFromDay_spec d) as S.
  rewrite DayFromYear_succ in S. lia.
Qed.

Lemma MonthFromDay_range d : 0 <= MonthFromDay d <= 11.
Proof.
  unfold MonthFromDay, monthOfYearDay.
  repeat match goal with |- context [if ?b then _ else _] => destruct b end; lia.
Qed.

Lemma monthOfYearDay_bounds dwy l :
  0 <= dwy < 365 + l -> (l = 0 \/ l = 1) ->
  monthStart (monthOfYearDay dwy l) l <= dwy
    < monthStart (monthOfYearDay dwy l + 1) l.
Proof.
  intros R L. unfold monthOfYearDay.
  destruct L; subst l;
  repeat match goal with
         | |- context [if ?a <? ?b then _ else _] =>
             destruct (Z.ltb_spec a b)
         end; unfold monthStart; simpl in *; lia.
Qed.

Lemma monthOfYearDay_unique m dwy l :
  0 <= m <= 11 -> (l = 0 \/ l = 1) ->
  monthStart m l <= dwy < monthStart (m + 1) l ->
  monthOfYearDay dwy l = m.
Proof.
  intros M L H.
  assert (C : m = 0 \/ m = 1 \/ m = 2 \/ m = 3 \/ m = 4 \/ m = 5 \/ m = 6
              \/ m = 7 \/ m = 8 \/ m = 9 \/ m = 10 \/ m = 11) by lia.
  unfold monthOfYearDay.
  unfold monthStart in H.
  destruct L; subst l;
  repeat (destruct C as [-> | C]; [simpl in H |]); try subst m; simpl in H;
  repeat match goal with
         | |- context [if ?a <? ?b then _ else _] =>
             destruct (Z.ltb_spec a b)
         end; lia.
Qed.

Lemma DateFromDay_range d :
  1 <= DateFromDay d <= DaysInMonth (YearFromDay d) (MonthFromDay d).
Proof.
  unfold DateFromDay, DaysInMonth, MonthFromDay.
  pose proof (DayWithinYear_range d) as R. unfold DaysInYear in R.
  pose proof (monthOfYearDay_bounds _ _ R (leapDays_01 _)). lia.
Qed.

(** A day number is rebuilt from its year, month and date. *)
Lemma MakeDay_fields d :
  MakeDay (YearFromDay d) (MonthFromDay d) (DateFromDay d) = d.
Proof.
  unfold MakeDay.
  pose proof (MonthFromDay_range d) as M.
  rewrite Z.div_small, Z.mod_small, Z.add_0_r by lia.
  unfold DateFromDay, DayWithinYear. lia.
Qed.

Lemma MakeDay_date y m dt : MakeDay y m dt = MakeDay y m 1 + (dt - 1).
Proof. unfold MakeDay. lia. Qed.

Lemma monthStart_range m l :
  0 <= m <= 12 -> (l = 0 \/ l = 1) -> 0 <= monthStart m l <= 365 + l.
Proof.
  intros M L.
  assert (C : m = 0 \/ m = 1 \/ m = 2 \/ m = 3 \/ m = 4 \/ m = 5 \/ m = 6
              \/ m = 7 \/ m = 8 \/ m = 9 \/ m = 10 \/ m = 11 \/ m = 12) by lia.
  unfold monthStart.
  destruct L; subst l;
  repeat (destruct C as [-> | C]; [simpl; lia |]); subst; simpl; lia.
Qed.

Lemma monthStart_mono m l :
  0 <= m <= 11 -> (l = 0 \/ l = 1) ->
  monthStart m l < monthStart (m + 1) l <= 365 + l.
Proof.
  intros M L.
  assert (C : m = 0 \/ m = 1 \/ m = 2 \/ m = 3 \/ m = 4 \/ m = 5 \/ m = 6
              \/ m = 7 \/ m = 8 \/ m = 9 \/ m = 10 \/ m = 11) by lia.
  unfold monthStart.
  destruct L; subst l;
  repeat (destruct C as [-> | C]; [simpl; lia |]); subst; simpl; lia.
Qed.

(** A valid date goes through [MakeDay] and comes back. *)
Lemma fields_MakeDay y m dt :
  0 <= m <= 11 -> 1 <= dt <= DaysInMonth y m ->
  YearFromDay (MakeDay y m dt) = y /\
  MonthFromDay (MakeDay y m dt) = m /\
  DateFromDay (MakeDay y m dt) = dt.
Proof.
  intros M D. unfold DaysInMonth in D.
  pose proof (monthStart_range m _ ltac:(lia) (leapDays_01 y)) as R0.
  pose proof (monthStart_mono m _ M (leapDays_01 y)) as R1.
  assert (E : MakeDay y m dt = DayFromYear y + (monthStart m (leapDays y) + dt - 1)).
  { unfold MakeDay. rewrite Z.div_small, Z.mod_small, Z.add_0_r by lia. lia. }
  assert (Y : YearFromDay (MakeDay y m dt) = y).
  { apply YearFromDay_unique. rewrite DayFromYear_succ. unfold DaysInYear. lia. }
  assert (Mo : MonthFromDay (MakeDay y m dt) = m).
  { unfold MonthFromDay, DayWithinYear. rewrite Y.
    apply monthOfYearDay_unique; auto using leapDays_01. lia. }
  repeat split; auto.
  unfold DateFromDay, DayWithinYear. rewrite Mo, Y. lia.
Qed.

Lemma DaysInMonth_le y m : 0 <= m <= 11 -> 28 <= DaysInMonth y m <= 31.
Proof.
  intros M. unfold DaysInMonth, monthStart.
  assert (C : m = 0 \/ m = 1 \/ m = 2 \/ m = 3 \/ m = 4 \/ m = 5 \/ m = 6
              \/ m = 7 \/ m = 8 \/ m = 9 \/ m = 10 \/ m = 11) by lia.
  destruct (leapDays_01 y) as [-> | ->];
  repeat (destruct C as [-> | C]; [simpl; lia |]); subst; simpl; lia.
Qed.

Lemma Day_MakeDate day time :
  0 <= time < msPerDay -> Day (MakeDate day time) = day.
Proof.
  intros H. unfold Day, MakeDate.
  rewrite Z.add_comm, Z.div_add by (unfold msPerDay; lia).
  rewrite Z.div_small by lia. lia.
Qed.

(** [d.setDate(d.getDate() - 1)] moves the time value back by one day,
    whatever the local offset. *)
Lemma setDate_pred tza t : setDate tza t (getDate tza t - 1) = t - msPerDay.
Proof.
  unfold setDate, getDate, YearFromTime, MonthFromTime, DateFromTime.
  set (lt := LocalTime tza t).
  rewrite MakeDay_date.
  pose proof (MakeDay_fields (Day lt)) as F.
  rewrite MakeDay_date in F.
  unfold UTC, MakeDate, TimeWithinDay.
  assert (lt = Day lt * msPerDay + lt mod msPerDay).
  { unfold Day. rewrite Z.mul_comm. apply Z.div_mod. unfold msPerDay; lia. }
  unfold LocalTime in *. subst lt. lia.
Qed.

Lemma Day_pred t : Day (t - msPerDay) = Day t - 1.
Proof.
  unfold Day. replace (t - msPerDay) with (t + (-1) * msPerDay) by lia.
  rewrite Z.div_add by (unfold msPerDay; lia). lia.
Qed.

End Calendar.

(* ================================================================== *)
(** * Facts about date strings *)

Section Strings.

Lemma append_length a b :
  String.length (a ++ b) = (String.length a + String.length b)%nat.
Proof. induction a; simpl; auto. Qed.

Lemma append_inj_l a a' b b' :
  String.length a = String.length a' -> a ++ b = a' ++ b' -> a = a' /\ b = b'.
Proof.
  revert a'. induction a as [| c a IH]; intros [| c' a'] L E;
    simpl in *; try discriminate; auto.
  injection E as -> E. destruct (IH a' ltac:(lia) E) as [-> ->]. auto.
Qed.

Lemma append_inj_r a a' b b' :
  String.length b = String.length b' -> a ++ b = a' ++ b' -> a = a' /\ b = b'.
Proof.
  intros L E. apply append_inj_l; auto.
  apply (f_equal String.length) in E. rewrite !append_length in E. lia.
Qed.

Lemma range_check (P : Z -> bool) (n : Z) :
  forallb (fun i => P (Z.of_nat i)) (seq 0 (Z.to_nat n)) = true ->
  forall z, 0 <= z < n -> P z = true.
Proof.
  intros H z R. rewrite forallb_forall in H.
  specialize (H (Z.to_nat z)). rewrite Z2Nat.id in H by lia.
  apply H, in_seq. lia.
Qed.

Lemma decimal_nonempty n : decimal n <> "".
Proof.
  unfold decimal. destruct (Z.to_N n) as [| p]; [discriminate |].
  simpl. pose proof (Unsigned.to_uint_nonnil p) as H.
  destruct (Pos.to_uint p); try discriminate. congruence.
Qed.

Lemma uint_of_zeros k s :
  NilEmpty.uint_of_string (zeros k ++ s) =
  option_map (Nat.iter k Decimal.D0) (NilEmpty.uint_of_string s).
Proof.
  induction k as [| k IH]; simpl.
  - destruct (NilEmpty.uint_of_string s); auto.
  - rewrite IH. destruct (NilEmpty.uint_of_string s); auto.
Qed.

Lemma of_uint_zeros k u : N.of_uint (Nat.iter k Decimal.D0 u) = N.of_uint u.
Proof. induction k; simpl; auto. Qed.

(** Reading back a padded number. *)
Lemma parseDigits_pad w n : 0 <= n -> parseDigits (pad w n) = Some n.
Proof.
  intros H. unfold parseDigits, pad, padStart.
  destruct (zeros (w - String.length (decimal n)) ++ decimal n) eqn:E.
  - exfalso. apply (decimal_nonempty n).
    destruct (zeros (w - String.length (decimal n))); [exact E | discriminate].
  - rewrite <- E, uint_of_zeros. unfold decimal.
    rewrite NilEmpty.usu. simpl.
    rewrite of_uint_zeros, DecimalN.Unsigned.of_to, Z2N.id by lia. reflexivity.
Qed.

Lemma pad_inj w n n' : 0 <= n -> 0 <= n' -> pad w n = pad w n' -> n = n'.
Proof.
  intros H H' E. apply (f_equal parseDigits) in E.
  rewrite !parseDigits_pad in E by lia. congruence.
Qed.

Lemma pad2_shape n : 0 <= n <= 99 -> isLen2 (pad 2 n) = true.
Proof.
  intros H. apply (range_check (fun z => isLen2 (pad 2 z)) 100); [| lia].
  vm_compute. reflexivity.
Qed.

Lemma range_check_100 (P : Z -> bool) :
  forallb (fun i => forallb (fun j => P (100 * Z.of_nat i + Z.of_nat j))
                      (seq 0 100)) (seq 0 100) = true ->
  forall z, 0 <= z < 10000 -> P z = true.
Proof.
  intros H z R. rewrite forallb_forall in H.
  assert (I : In (Z.to_nat (z / 100)) (seq 0 100)).
  { apply in_seq. Z.div_mod_to_equations. lia. }
  specialize (H _ I). rewrite forallb_forall in H.
  assert (J : In (Z.to_nat (z mod 100)) (seq 0 100)).
  { apply in_seq. Z.div_mod_to_equations. lia. }
  specialize (H _ J).
  rewrite !Z2Nat.id in H by (Z.div_mod_to_equations; lia).
  rewrite <- Z.div_mod in H by lia. exact H.
Qed.

Lemma year4_check y : 0 <= y <= 9999 -> year4_ok y = true.
Proof.
  intros H. apply range_check_100; [| lia]. vm_compute. reflexivity.
Qed.

Lemma pad4_shape n : 0 <= n <= 9999 -> isLen4 (pad 4 n) = true.
Proof.
  intros H. apply year4_check in H. apply andb_true_iff in H. tauto.
Qed.

Lemma yearOfString_small y :
  0 <= y <= 9999 -> yearOfString (pad 4 y) = Some y.
Proof.
  intros H. apply year4_check in H. apply andb_true_iff in H.
  destruct H as [_ H].
  destruct (yearOfString (pad 4 y)); [| discriminate].
  apply Z.eqb_eq in H. congruence.
Qed.

Lemma yearOfString_yearString y : yearOfString (yearString y) = Some y.
Proof.
  unfold yearString.
  destruct ((0 <=? y) && (y <=? 9999)) eqn:R.
  - apply andb_true_iff in R. destruct R as [R1 R2].
    apply yearOfString_small. lia.
  - destruct (Z.ltb_spec y 0); simpl.
    + rewrite parseDigits_pad by lia. simpl. f_equal. lia.
    + rewrite parseDigits_pad by lia. f_equal. lia.
Qed.

Lemma yearString_inj y y' : yearString y = yearString y' -> y = y'.
Proof.
  intros E. apply (f_equal yearOfString) in E.
  rewrite !yearOfString_yearString in E. congruence.
Qed.

Lemma isoDate_inj y m dt y' m' dt' :
  0 <= m <= 11 -> 0 <= m' <= 11 -> 1 <= dt <= 31 -> 1 <= dt' <= 31 ->
  isoDate y m dt = isoDate y' m' dt' -> y = y' /\ m = m' /\ dt = dt'.
Proof.
  intros M M' D D' E. unfold isoDate in E.
  pose proof (pad2_shape (m + 1) ltac:(lia)) as S1.
  pose proof (pad2_shape (m' + 1) ltac:(lia)) as S2.
  pose proof (pad2_shape dt ltac:(lia)) as S3.
  pose proof (pad2_shape dt' ltac:(lia)) as S4.
  pose proof (pad_inj 2 (m + 1) (m' + 1) ltac:(lia) ltac:(lia)) as I1.
  pose proof (pad_inj 2 dt dt' ltac:(lia) ltac:(lia)) as I2.
  destruct (pad 2 (m + 1)) as [| a1 [| a2 [| ? ?]]]; try discriminate.
  destruct (pad 2 (m' + 1)) as [| b1 [| b2 [| ? ?]]]; try discriminate.
  destruct (pad 2 dt) as [| c1 [| c2 [| ? ?]]]; try discriminate.
  destruct (pad 2 dt') as [| d1 [| d2 [| ? ?]]]; try discriminate.
  apply append_inj_r in E; [| reflexivity].
  destruct E as [EY ET]. simpl in ET. injection ET as -> -> -> ->.
  apply yearString_inj in EY.
  specialize (I1 eq_refl). specialize (I2 eq_refl). lia.
Qed.

(** Distinct days have distinct date keys. *)
Lemma dateKeyOfDay_inj d d' : dateKeyOfDay d = dateKeyOfDay d' -> d = d'.
Proof.
  unfold dateKeyOfDay. intros E.
  pose proof (MonthFromDay_range d) as M.
  pose proof (MonthFromDay_range d') as M'.
  pose proof (DateFromDay_range d) as D.
  pose proof (DateFromDay_range d') as D'.
  pose proof (DaysInMonth_le (YearFromDay d) (MonthFromDay d) M).
  pose proof (DaysInMonth_le (YearFromDay d') (MonthFromDay d') M').
  apply isoDate_inj in E; try lia.
  destruct E as (EY & EM & ED).
  rewrite <- (MakeDay_fields d), <- (MakeDay_fields d'). congruence.
Qed.

End Strings.

(* ================================================================== *)
(** * Reading date keys *)

Section DateKeys.

Lemma parseDate_shape7 a b c d s e f :
  parseDate (String a (String b (String c (String d
              (String s (String e (String f ""))))))) =
  match parseDigits (String a (String b (String c (String d "")))),
        parseDigits (String e (String f "")) with
  | Some y, Some mo =>
      if negb (String.eqb (String s "") "-") then None
      else if negb ((1 <=? mo) && (mo <=? 12)) then None
      else Some (MakeDate (MakeDay y (mo - 1) 1) 0)
  | _, _ => None
  end.
Proof. reflexivity. Qed.

Lemma parseDate_shape10 a b c d s e f s' g h :
  parseDate (String a (String b (String c (String d
              (String s (String e (String f
                (String s' (String g (String h "")))))))))) =
  match parseDigits (String a (String b (String c (String d "")))),
        parseDigits (String e (String f "")) with
  | Some y, Some mo =>
      if negb (String.eqb (String s "") "-") then None
      else if negb ((1 <=? mo) && (mo <=? 12)) then None
      else
        match parseDigits (String g (String h "")) with
        | Some dt =>
            if negb (String.eqb (String s' "") "-") then None
            else if negb ((1 <=? dt) && (dt <=? DaysInMonth y (mo - 1)))
            then None
            else Some (MakeDate (MakeDay y (mo - 1) dt) 0)
        | None => None
        end
  | _, _ => None
  end.
Proof. reflexivity. Qed.

Lemma pad4_digits y :
  0 <= y <= 9999 ->
  exists a b c d, pad 4 y = String a (String b (String c (String d ""))).
Proof.
  intros H. apply pad4_shape in H.
  destruct (pad 4 y) as [| a [| b [| c [| d [| ? ?]]]]]; try discriminate.
  now exists a, b, c, d.
Qed.

Lemma pad2_digits n :
  0 <= n <= 99 -> exists a b, pad 2 n = String a (String b "").
Proof.
  intros H. apply pad2_shape in H.
  destruct (pad 2 n) as [| a [| b [| ? ?]]]; try discriminate.
  now exists a, b.
Qed.

Lemma yearString_small y : 0 <= y <= 9999 -> yearString y = pad 4 y.
Proof.
  intros H. unfold yearString.
  destruct (Z.leb_spec 0 y), (Z.leb_spec y 9999); simpl; auto; lia.
Qed.

Section ValidDate.

Variables y m dt : Z.
Hypothesis Hy : 0 <= y <= 9999.
Hypothesis Hm : 0 <= m <= 11.
Hypothesis Hd : 1 <= dt <= DaysInMonth y m.

Lemma parseDate_isoDate :
  parseDate (isoDate y m dt) = Some (MakeDate (MakeDay y m dt) 0).
Proof.
  pose proof (DaysInMonth_le y m Hm) as B.
  destruct (pad4_digits y Hy) as (a & b & c & d & E4).
  destruct (pad2_digits (m + 1) ltac:(lia)) as (e & f & E2).
  destruct (pad2_digits dt ltac:(lia)) as (g & h & E2').
  unfold isoDate. rewrite yearString_small, E4, E2, E2' by auto.
  cbn [append]. rewrite parseDate_shape10.
  rewrite <- E4, <- E2, <- E2', !parseDigits_pad by lia.
  replace (m + 1 - 1) with m by lia.
  destruct (Z.leb_spec 1 (m + 1)), (Z.leb_spec (m + 1) 12); try lia.
  destruct (Z.leb_spec 1 dt), (Z.leb_spec dt (DaysInMonth y m)); try lia.
  reflexivity.
Qed.

Lemma parseDate_isoMonth :
  parseDate (isoMonth y m) = Some (MakeDate (MakeDay y m 1) 0).
Proof.
  destruct (pad4_digits y Hy) as (a & b & c & d & E4).
  destruct (pad2_digits (m + 1) ltac:(lia)) as (e & f & E2).
  unfold isoMonth. rewrite yearString_small, E4, E2 by auto.
  cbn [append]. rewrite parseDate_shape7.
  rewrite <- E4, <- E2, !parseDigits_pad by lia.
  replace (m + 1 - 1) with m by lia.
  destruct (Z.leb_spec 1 (m + 1)), (Z.leb_spec (m + 1) 12); try lia.
  reflexivity.
Qed.

Lemma month_isoDate : getMonthFromDateString (isoDate y m dt) = isoMonth y m.
Proof.
  pose proof (DaysInMonth_le y m Hm) as B.
  destruct (pad4_digits y Hy) as (a & b & c & d & E4).
  destruct (pad2_digits (m + 1) ltac:(lia)) as (e & f & E2).
  destruct (pad2_digits dt ltac:(lia)) as (g & h & E2').
  unfold isoDate, isoMonth. rewrite yearString_small, E4, E2, E2' by auto.
  reflexivity.
Qed.

Lemma length_isoDate : String.length (isoDate y m dt) = 10%nat.
Proof.
  pose proof (DaysInMonth_le y m Hm) as B.
  destruct (pad4_digits y Hy) as (a & b & c & d & E4).
  destruct (pad2_digits (m + 1) ltac:(lia)) as (e & f & E2).
  destruct (pad2_digits dt ltac:(lia)) as (g & h & E2').
  unfold isoDate. rewrite yearString_small, E4, E2, E2' by auto.
  reflexivity.
Qed.

End ValidDate.

Lemma isoMonth_inj y m y' m' :
  0 <= m <= 11 -> 0 <= m' <= 11 ->
  isoMonth y m = isoMonth y' m' -> y = y' /\ m = m'.
Proof.
  intros M M' E. unfold isoMonth in E.
  destruct (pad2_digits (m + 1) ltac:(lia)) as (e & f & E2).
  destruct (pad2_digits (m' + 1) ltac:(lia)) as (e' & f' & E2').
  apply append_inj_r in E; [| rewrite E2, E2'; reflexivity].
  destruct E as [EY ET]. apply yearString_inj in EY.
  cbn [append] in ET. injection ET as ET.
  apply pad_inj in ET; lia.
Qed.

Lemma toISODate_MakeDay y m dt tod :
  0 <= m <= 11 -> 1 <= dt <= DaysInMonth y m -> 0 <= tod < msPerDay ->
  toISODate (MakeDate (MakeDay y m dt) tod) = isoDate y m dt.
Proof.
  intros M D T. unfold toISODate, dateKeyOfDay. rewrite Day_MakeDate by auto.
  destruct (fields_MakeDay y m dt M D) as (-> & -> & ->). reflexivity.
Qed.

Lemma length_zeros n : String.length (zeros n) = n.
Proof. induction n; simpl; auto. Qed.

Lemma length_pad w n : (w <= String.length (pad w n))%nat.
Proof.
  unfold pad, padStart. rewrite append_length, length_zeros. lia.
Qed.

Lemma length_isoDate_big y m dt :
  ~ 0 <= y <= 9999 -> (10 < String.length (isoDate y m dt))%nat.
Proof.
  intros H. unfold isoDate, yearString.
  destruct (Z.leb_spec 0 y), (Z.leb_spec y 9999); simpl; try lia;
    destruct (y <? 0);
    rewrite ?append_length; simpl; rewrite ?append_length; simpl;
    pose proof (length_pad 6 (Z.abs y));
    pose proof (length_pad 2 (m + 1)); pose proof (length_pad 2 dt); lia.
Qed.

Lemma parseDigits_nonneg s n : parseDigits s = Some n -> 0 <= n.
Proof.
  unfold parseDigits. destruct s; [discriminate |].
  destruct (NilEmpty.uint_of_string _); [| discriminate].
  intros [= <-]. lia.
Qed.

(** A key that passes [isDateKey] is the key of a calendar date. *)
Lemma isDateKey_spec k :
  isDateKey k = true ->
  exists y m dt,
    0 <= y <= 9999 /\ 0 <= m <= 11 /\ 1 <= dt <= DaysInMonth y m /\
    k = isoDate y m dt.
Proof.
  unfold isDateKey. destruct (parseDate k) as [t |] eqn:P; [| discriminate].
  intros H. apply andb_true_iff in H. destruct H as [L E].
  apply Nat.eqb_eq in L. apply String.eqb_eq in E.
  destruct k as [| a [| b [| c [| d [| s [| e [| f [| s' [| g [| h [| ? ?]]]]]]]]]]];
    try discriminate.
  rewrite parseDate_shape10 in P.
  destruct (parseDigits (String a (String b (String c (String d "")))))
    as [y |] eqn:PY; [| discriminate].
  destruct (parseDigits (String e (String f ""))) as [mo |] eqn:PM;
    [| discriminate].
  destruct (String.eqb (String s "") "-"); cbn [negb] in P;
    [| discriminate].
  destruct ((1 <=? mo) && (mo <=? 12)) eqn:RM; cbn [negb] in P;
    [| discriminate].
  destruct (parseDigits (String g (String h ""))) as [dt |] eqn:PD;
    [| discriminate].
  destruct (String.eqb (String s' "") "-"); cbn [negb] in P;
    [| discriminate].
  destruct ((1 <=? dt) && (dt <=? DaysInMonth y (mo - 1))) eqn:RD;
    cbn [negb] in P; [| discriminate].
  apply andb_true_iff in RM, RD. rewrite !Z.leb_le in RM, RD.
  injection P as <-.
  rewrite toISODate_MakeDay in E by (unfold msPerDay; lia).
  exists y, (mo - 1), dt. repeat split; auto; try lia.
  - eapply parseDigits_nonneg; eauto.
  - destruct (Z_le_gt_dec y 9999) as [? | G]; auto.
    pose proof (length_isoDate_big y (mo - 1) dt ltac:(lia)) as B.
    rewrite E in B. simpl in B. lia.
Qed.

End DateKeys.

(* ================================================================== *)
(** * The streak walk *)

Section Streak.

Variables (tza : Z) (user : string) (records : Records) (now : Z).




Lemma checkedIn_key date :
  checkedIn records date user = true -> In date (okeys records).
Proof.
  unfold checkedIn. destruct (oget date records) eqn:E; [| discriminate].
  intros _. eapply oget_In_keys; eauto.
Qed.

(** The [Date] object of the walk after [k] iterations shows the day
    [k] days before today. *)
Lemma toISODate_back k :
  toISODate (now - Z.of_nat k * msPerDay) = dayBefore now k.
Proof.
  unfold toISODate, dayBefore, Day. f_equal.
  replace (now - Z.of_nat k * msPerDay)
    with (now + (- Z.of_nat k) * msPerDay) by lia.
  rewrite Z.div_add by (unfold msPerDay; lia). lia.
Qed.

Lemma streakLoop_step fuel c :
  streakLoop (S fuel) tza user records (now - Z.of_nat c * msPerDay) c =
  if checkedIn records (dayBefore now c) user
  then streakLoop fuel tza user records
         (now - Z.of_nat (S c) * msPerDay) (S c)
  else Some c.
Proof.
  cbn [streakLoop]. rewrite toISODate_back, setDate_pred.
  replace (now - Z.of_nat c * msPerDay - msPerDay)
    with (now - Z.of_nat (S c) * msPerDay) by lia.
  reflexivity.
Qed.

(** The walk returns at the first day without an entry. *)
Lemma streakLoop_stops n : forall c fuel,
  (forall j, (c <= j < c + n)%nat ->
             checkedIn records (dayBefore now j) user = true) ->
  checkedIn records (dayBefore now (c + n)) user = false ->
  (n < fuel)%nat ->
  streakLoop fuel tza user records (now - Z.of_nat c * msPerDay) c
  = Some (c + n)%nat.
Proof.
  induction n as [| n IH]; intros c fuel A G F;
    (destruct fuel as [| fuel]; [lia |]); rewrite streakLoop_step.
  - rewrite Nat.add_0_r in *. now rewrite G.
  - rewrite A by lia.
    replace (c + S n)%nat with (S c + n)%nat in * by lia.
    apply IH; auto; try lia. intros j J. apply A. lia.
Qed.


Lemma first_gap k :
  (forall j, (j < k)%nat -> checkedIn records (dayBefore now j) user = true) \/
  (exists n, (n < k)%nat /\
     checkedIn records (dayBefore now n) user = false /\
     forall j, (j < n)%nat -> checkedIn records (dayBefore now j) user = true).
Proof.
  induction k as [| k [A | (n & L & G & A)]].
  - left. intros j J. lia.
  - destruct (checkedIn records (dayBefore now k) user) eqn:E.
    + left. intros j J. destruct (Nat.eq_dec j k) as [-> | N]; auto.
      apply A. lia.
    + right. exists k. auto.
  - right. exists n. auto.
Qed.

Lemma dayBefore_inj k k' : dayBefore now k = dayBefore now k' -> k = k'.
Proof. unfold dayBefore. intros E. apply dateKeyOfDay_inj in E. lia. Qed.

(** The store has finitely many dates, so a gap comes up. *)
Lemma gap_exists :
  exists n, (n <= List.length records)%nat /\
    checkedIn records (dayBefore now n) user = false /\
    forall j, (j < n)%nat -> checkedIn records (dayBefore now j) user = true.
Proof.
  destruct (first_gap (S (List.length records))) as [A | (n & L & G & A)].
  - exfalso.
    assert (N : NoDup (map (dayBefore now) (seq 0 (S (List.length records))))).
    { apply Injective_map_NoDup; [| apply seq_NoDup].
      intros k k'. apply dayBefore_inj. }
    apply NoDup_incl_length with (l' := okeys records) in N.
    + unfold okeys in N. rewrite !length_map, length_seq in N. lia.
    + intros d I. apply in_map_iff in I. destruct I as (k & <- & I).
      apply in_seq in I. apply checkedIn_key, A. lia.
  - exists n. split; [lia | auto].
Qed.

(** The walk ends for every store, at the first gap. *)
Lemma streakLoop_total :
  exists n, (n <= List.length records)%nat /\
    checkedIn records (dayBefore now n) user = false /\
    (forall j, (j < n)%nat ->
               checkedIn records (dayBefore now j) user = true) /\
    forall fuel, (n < fuel)%nat ->
      calculateConsecutiveDays fuel tza now user records = Some n.
Proof.
  destruct gap_exists as (n & L & G & A). exists n. repeat split; auto.
  intros fuel F. unfold calculateConsecutiveDays.
  pose proof (streakLoop_stops n 0 fuel) as S. simpl in S.
  replace (now - 0) with now in S by lia. apply S; auto.
  intros j J. apply A. lia.
Qed.

End Streak.






(* ================================================================== *)
(** * [monthlyStats] *)

Section Sorting.

Lemma insertBy_perm {A} (cmp : A -> A -> Z) x l :
  Permutation (insertBy cmp x l) (x :: l).
Proof.
  induction l as [| y l IH]; simpl; auto.
  destruct (cmp x y <=? 0); auto.
  rewrite IH. apply perm_swap.
Qed.

Lemma sortBy_perm {A} (cmp : A -> A -> Z) l : Permutation (sortBy cmp l) l.
Proof.
  induction l as [| x l IH]; simpl; auto.
  rewrite insertBy_perm. auto.
Qed.

Lemma insertBy_sorted x l :
  StronglySorted descending l ->
  StronglySorted descending (insertBy byTotalDesc x l).
Proof.
  induction 1 as [| y l S IH F]; simpl.
  - repeat constructor.
  - destruct (Z.leb_spec (byTotalDesc x y) 0) as [L | G];
      unfold byTotalDesc in *.
    + constructor; [constructor; auto |].
      constructor; [unfold descending; lia |].
      eapply Forall_impl; [| exact F]. unfold descending. intros; lia.
    + constructor; auto.
      rewrite (insertBy_perm byTotalDesc x l).
      constructor; auto. unfold descending. lia.
Qed.

Lemma sortBy_sorted l : StronglySorted descending (sortBy byTotalDesc l).
Proof.
  induction l; simpl; [constructor | now apply insertBy_sorted].
Qed.

End Sorting.

Section Totals.

Lemma initTotals_gen users : forall t,
  (forall u, In u (okeys (fold_left (fun t u => oset u 0 t) users t))
             <-> In u users \/ In u (okeys t)) /\
  (NoDup (okeys t) ->
   NoDup (okeys (fold_left (fun t u => oset u 0 t) users t))) /\
  ((forall u c, oget u t = Some c -> c = 0) ->
   forall u c, oget u (fold_left (fun t u => oset u 0 t) users t) = Some c ->
               c = 0).
Proof.
  induction users as [| x users IH]; intros t; simpl.
  - repeat split; auto; tauto.
  - destruct (IH (oset x 0 t)) as (K & N & Z0). split; [| split].
    + intros u. rewrite K, okeys_oset_iff. intuition.
    + intros H. apply N. now apply NoDup_okeys_oset.
    + intros H. apply Z0. intros u c.
      destruct (string_dec u x) as [-> | D].
      * rewrite oget_oset_eq. congruence.
      * rewrite oget_oset_neq by auto. apply H.
Qed.

Lemma initTotals_keys users u :
  In u (okeys (initTotals users)) <-> In u users.
Proof.
  unfold initTotals. destruct (initTotals_gen users []) as (K & _).
  rewrite K. simpl. tauto.
Qed.

Lemma initTotals_NoDup users : NoDup (okeys (initTotals users)).
Proof.
  unfold initTotals. destruct (initTotals_gen users []) as (_ & N & _).
  apply N. constructor.
Qed.


Lemma addUser_keys rec t x : okeys (addUser rec t x) = okeys t.
Proof.
  unfold addUser. destruct (ohas x t) eqn:H; auto.
  destruct (oget x t), (oget x rec); auto.
  apply okeys_oset_in. now apply ohas_In.
Qed.

Lemma addUser_get rec t x u :
  oget u (addUser rec t x) =
  if String.eqb u x then option_map (fun a => a + countOf rec x) (oget u t)
  else oget u t.
Proof.
  unfold addUser, ohas, countOf.
  destruct (String.eqb_spec u x) as [-> | N].
  - destruct (oget x t) eqn:E; simpl; [| now rewrite E].
    destruct (oget x rec); [apply oget_oset_eq |].
    rewrite E. f_equal. lia.
  - destruct (oget x t); auto. destruct (oget x rec); auto.
    now apply oget_oset_neq.
Qed.

Lemma addDay_fold rec ks : forall t,
  okeys (fold_left (addUser rec) ks t) = okeys t /\
  (NoDup ks -> forall u,
     oget u (fold_left (addUser rec) ks t) =
     option_map (fun a => a + if in_dec string_dec u ks
                              then countOf rec u else 0) (oget u t)).
Proof.
  induction ks as [| x ks IH]; intros t; simpl.
  - split; auto. intros _ u.
    destruct (oget u t); simpl; [f_equal; lia | reflexivity].
  - destruct (IH (addUser rec t x)) as (K & G). split.
    + now rewrite K, addUser_keys.
    + intros N u. inversion N as [| ? ? N1 N2]; subst.
      rewrite G, addUser_get by auto.
      destruct (string_dec x u) as [-> | D].
      * rewrite String.eqb_refl. destruct (in_dec string_dec u ks); [tauto |].
        destruct (in_dec string_dec u (u :: ks)); [| simpl in *; tauto].
        destruct (oget u t); simpl; [f_equal; lia | reflexivity].
      * destruct (String.eqb_spec u x); [congruence |].
        destruct (in_dec string_dec u ks), (in_dec string_dec u (x :: ks));
          simpl in *; try reflexivity; tauto.
Qed.

Lemma addDay_keys rec t : okeys (addDay rec t) = okeys t.
Proof. apply (addDay_fold rec (okeys rec) t). Qed.


Lemma addDate_keys records month t d :
  okeys (addDate records month t d) = okeys t.
Proof.
  unfold addDate. destruct (String.eqb _ _); auto.
  destruct (oget d records); auto using addDay_keys.
Qed.

Lemma addMonth_keys_gen records month ds : forall t,
  okeys (fold_left (addDate records month) ds t) = okeys t.
Proof.
  induction ds as [| d ds IH]; intros t; simpl; auto.
  now rewrite IH, addDate_keys.
Qed.

Lemma addMonth_keys records month t :
  okeys (addMonth records month t) = okeys t.
Proof. apply addMonth_keys_gen. Qed.



Lemma wfRecords_spec (r : Records) :
  wfRecords r = true ->
  NoDup (okeys r) /\ Forall (fun p => NoDup (okeys (snd p))) r.
Proof.
  unfold wfRecords, wfObject. intros H.
  apply andb_true_iff in H. destruct H as [H1 H2].
  split; [now apply distinct_NoDup |].
  apply Forall_forall. intros p I. rewrite forallb_forall in H2.
  apply distinct_NoDup. now apply H2.
Qed.


End Totals.

Section Rows.

Variables (tza now : Z) (records : Records).

(** Every row is produced: the streak walk ends for each user. *)
Lemma rowsOf_total (totals : dict Z) :
  exists rows,
    (forall fuel, (List.length records < fuel)%nat ->
       rowsOf fuel tza now records totals = Some rows) /\
    map (fun r => (row_user r, row_total r)) rows = totals.
Proof.
  induction totals as [| [u t] totals (rows & R & M)].
  - exists []. split; auto.
  - destruct (streakLoop_total tza u records now) as (n & L & _ & _ & T).
    exists (mkRow u t n :: rows). split.
    + intros fuel F. simpl. rewrite T by lia. now rewrite R.
    + simpl. now rewrite M.
Qed.

(** The report: the rows of [totals], sorted. *)
Lemma monthlyStatsFor_rows users month :
  exists rows,
    (forall fuel, (List.length records < fuel)%nat ->
       monthlyStatsFor fuel tza now users records month = Some rows) /\
    Permutation (map (fun r => (row_user r, row_total r)) rows)
                (addMonth records month (initTotals users)) /\
    StronglySorted descending rows.
Proof.
  destruct (rowsOf_total (addMonth records month (initTotals users)))
    as (rows & R & M).
  exists (sortBy byTotalDesc rows). repeat split.
  - intros fuel F. unfold monthlyStatsFor. now rewrite R.
  - rewrite <- M. apply Permutation_map, sortBy_perm.
  - apply sortBy_sorted.
Qed.

Lemma report_users users month rows :
  Permutation (map (fun r => (row_user r, row_total r)) rows)
              (addMonth records month (initTotals users)) ->
  NoDup (map row_user rows) /\
  (forall u, In u (map row_user rows) <-> In u users).
Proof.
  intros P. apply (Permutation_map fst) in P.
  rewrite map_map in P. simpl in P.
  change (map fst (addMonth records month (initTotals users)))
    with (okeys (addMonth records month (initTotals users))) in P.
  rewrite addMonth_keys in P. split.
  - eapply Permutation_NoDup; [symmetry; exact P | apply initTotals_NoDup].
  - intros u. rewrite <- (initTotals_keys users u). split.
    + apply Permutation_in. exact P.
    + apply Permutation_in. symmetry. exact P.
Qed.

End Rows.



(* ================================================================== *)
(** * Entries of names that are not members *)

Section Orphans.

Variable users : list string.














End Orphans.


(* ================================================================== *)
(** * The handlers of [App] *)

Section Heap.

Lemma length_update {A} l (v : A) h : List.length (update l v h) = List.length h.
Proof.
  revert l. induction h as [| x h IH]; intros [| l]; simpl; auto.
Qed.

Lemma cell_update l v h l' :
  cell (update l v h) l' =
  if Nat.eqb l l' && Nat.ltb l (List.length h) then v else cell h l'.
Proof.
  unfold cell. revert l l'.
  induction h as [| x h IH]; intros l l'; simpl.
  - rewrite andb_false_r. destruct l; reflexivity.
  - destruct l as [| l], l' as [| l']; simpl; auto.
Qed.

Lemma update_same l h : update l (cell h l) h = h.
Proof.
  unfold cell. revert l.
  induction h as [| x h IH]; intros [| l]; simpl; auto.
  now rewrite IH.
Qed.

Lemma cell_app_old (h : Heap) c l :
  (l < List.length h)%nat -> cell (h ++ [c])%list l = cell h l.
Proof. intros L. unfold cell. now apply app_nth1. Qed.

Lemma cell_app_new (h : Heap) c : cell (h ++ [c])%list (List.length h) = c.
Proof. unfold cell. rewrite app_nth2, Nat.sub_diag by lia. reflexivity. Qed.

Lemma oget_deref h r d : oget d (deref h r) = option_map (cell h) (oget d r).
Proof.
  induction r as [| [d' l] r IH]; simpl; auto.
  destruct (String.eqb d d'); auto.
Qed.

Lemma okeys_deref h r : okeys (deref h r) = okeys r.
Proof. unfold deref, okeys. rewrite map_map. reflexivity. Qed.

(** A heap that grows leaves readers of a closed state undisturbed. *)
Lemma deref_app h c r :
  forallb (fun p => Nat.ltb (snd p) (List.length h)) r = true ->
  deref (h ++ [c])%list r = deref h r.
Proof.
  intros C. unfold deref. apply map_ext_in. intros [d l] I.
  rewrite forallb_forall in C. specialize (C _ I). simpl in *.
  apply Nat.ltb_lt in C. now rewrite cell_app_old.
Qed.

End Heap.

Section CheckIn.

Variables (now : Z) (member : string) (chapters : Z) (st : State).

Lemma handleCheckIn_entry :
  entry (view (handleCheckIn now member chapters st))
        (getTodayDateString now) member = Some chapters.
Proof.
  destruct st as [h d]. unfold entry, view. simpl.
  rewrite oget_deref, oget_oset_eq. simpl.
  rewrite cell_app_new. apply oget_oset_eq.
Qed.

Lemma handleCheckIn_today :
  oget (getTodayDateString now) (view (handleCheckIn now member chapters st))
  = Some (oset member chapters
            (match oget (getTodayDateString now) (view st) with
             | Some rec => rec
             | None => []
             end)).
Proof.
  destruct st as [h d]. unfold view. simpl.
  rewrite !oget_deref, oget_oset_eq. simpl. rewrite cell_app_new.
  destruct (oget (getTodayDateString now) (records d)); reflexivity.
Qed.

Lemma closed_In h d date l :
  closed (h, d) = true -> In (date, l) (records d) -> (l < List.length h)%nat.
Proof.
  unfold closed. simpl. intros C I. rewrite forallb_forall in C.
  specialize (C _ I). now apply Nat.ltb_lt in C.
Qed.

Lemma handleCheckIn_other_date date :
  closed st = true -> date <> getTodayDateString now ->
  oget date (view (handleCheckIn now member chapters st))
  = oget date (view st).
Proof.
  destruct st as [h d]. unfold view. simpl. intros C N.
  rewrite !oget_deref, oget_oset_neq by auto.
  destruct (oget date (records d)) as [l |] eqn:E; simpl; auto.
  f_equal. apply cell_app_old.
  apply oget_Some_In in E. eapply closed_In; eauto.
Qed.

(** [handleCheckIn] allocates and leaves every existing cell as it was. *)
Lemma handleCheckIn_frame :
  closed st = true ->
  deref (fst (handleCheckIn now member chapters st)) (records (snd st))
  = view st.
Proof.
  destruct st as [h d]. unfold closed, view. simpl. apply deref_app.
Qed.

Lemma handleCheckIn_users :
  users (snd (handleCheckIn now member chapters st)) = users (snd st).
Proof. destruct st as [h d]. reflexivity. Qed.

Lemma In_oset_inv {V} k (v : V) o p :
  In p (oset k v o) -> p = (k, v) \/ In p o.
Proof.
  induction o as [| [k' v'] o IH]; simpl.
  - intros [<- | []]. auto.
  - destruct (String.eqb_spec k k') as [-> | N]; simpl.
    + intros [<- | I]; auto.
    + intros [<- | I]; auto. destruct (IH I); auto.
Qed.

Lemma closed_handleCheckIn :
  closed st = true -> closed (handleCheckIn now member chapters st) = true.
Proof.
  destruct st as [h d]. intros C. unfold closed. simpl.
  apply forallb_forall. intros [date l] I. simpl.
  rewrite length_app. simpl. apply Nat.ltb_lt.
  apply In_oset_inv in I. destruct I as [E | I].
  - injection E as _ ->. lia.
  - pose proof (closed_In _ _ _ _ C I). lia.
Qed.

End CheckIn.

Lemma wfState_today_cell now st :
  wfState st = true ->
  NoDup (okeys (match oget (getTodayDateString now) (view st) with
                | Some rec => rec
                | None => []
                end)).
Proof.
  intros W. unfold wfState in W. apply andb_true_iff in W.
  destruct W as [W _]. apply wfRecords_spec in W. destruct W as [_ F].
  destruct (oget (getTodayDateString now) (view st)) as [rec |] eqn:E;
    [| constructor].
  apply oget_Some_In in E. rewrite Forall_forall in F. apply (F _ E).
Qed.

(** C5: after two check-ins of the same member on the same day, with
    counts [c1] and then [c2], today's sub-map holds exactly one key for
    the member and its value is [c2]; the entries of the other members
    for today and the sub-maps of all other dates are as before. *)
Theorem check_in_twice_overwrites now1 now2 member c1 c2 st :
  wfState st = true ->
  getTodayDateString now1 = getTodayDateString now2 ->
  let today := getTodayDateString now1 in
  let st2 := handleCheckIn now2 member c2 (handleCheckIn now1 member c1 st) in
  entry (view st2) today member = Some c2 /\
  (exists rec, oget today (view st2) = Some rec /\
               count_occ string_dec (okeys rec) member = 1%nat) /\
  (forall m, m <> member ->
             entry (view st2) today m = entry (view st) today m) /\
  (forall date, date <> today -> oget date (view st2) = oget date (view st)).
Proof.
  intros W E today st2. subst today st2.
  pose proof W as C. unfold wfState in C. apply andb_true_iff in C.
  destruct C as [_ C].
  assert (T : oget (getTodayDateString now1)
                (view (handleCheckIn now2 member c2
                         (handleCheckIn now1 member c1 st)))
              = Some (oset member c2 (oset member c1
                  (match oget (getTodayDateString now1) (view st) with
                   | Some rec => rec
                   | None => []
                   end)))).
  { rewrite E at 1. rewrite handleCheckIn_today. rewrite <- E.
    now rewrite handleCheckIn_today. }
  repeat split.
  - rewrite E. apply handleCheckIn_entry.
  - eexists. split; [exact T |].
    apply NoDup_count_occ'.
    + apply NoDup_okeys_oset, NoDup_okeys_oset, wfState_today_cell, W.
    + apply okeys_oset_iff. auto.
  - intros m N. unfold entry at 1. rewrite T.
    rewrite !oget_oset_neq by auto. unfold entry.
    destruct (oget (getTodayDateString now1) (view st)); reflexivity.
  - intros date N.
    rewrite handleCheckIn_other_date;
      [| now apply closed_handleCheckIn | congruence].
    now apply handleCheckIn_other_date.
Qed.

Lemma check_in_twice_overwrites_witness :
  wfState stTwoDays = true /\
  getTodayDateString noon_2024_05_15 = getTodayDateString evening_2024_05_15 /\
  entry (view (handleCheckIn evening_2024_05_15 "B" 7
                 (handleCheckIn noon_2024_05_15 "B" 4 stTwoDays)))
        (getTodayDateString noon_2024_05_15) "B" = Some 7 /\
  (exists rec,
     oget (getTodayDateString noon_2024_05_15)
          (view (handleCheckIn evening_2024_05_15 "B" 7
                   (handleCheckIn noon_2024_05_15 "B" 4 stTwoDays)))
       = Some rec /\
     count_occ string_dec (okeys rec) "B" = 1%nat) /\
  (forall m, m <> "B" ->
     entry (view (handleCheckIn evening_2024_05_15 "B" 7
                    (handleCheckIn noon_2024_05_15 "B" 4 stTwoDays)))
           (getTodayDateString noon_2024_05_15) m
     = entry (view stTwoDays) (getTodayDateString noon_2024_05_15) m) /\
  (forall date, date <> getTodayDateString noon_2024_05_15 ->
     oget date (view (handleCheckIn evening_2024_05_15 "B" 7
                        (handleCheckIn noon_2024_05_15 "B" 4 stTwoDays)))
     = oget date (view stTwoDays)).
Proof.
  split; [reflexivity |]. split; [reflexivity |].
  apply (check_in_twice_overwrites noon_2024_05_15 evening_2024_05_15
           "B" 4 7 stTwoDays); reflexivity.
Defined.




(** C8: [handleAddUser] with a name that is already in [users] raises the
    "member exists" alert and returns the state it was given. *)
Theorem add_member_duplicate name st :
  In name (users (snd st)) ->
  handleAddUser name st = (Some (AlertMemberExists name), st).
Proof.
  destruct st as [h d]. simpl. intros I. unfold handleAddUser.
  apply includes_In in I. now rewrite I.
Qed.

Lemma add_member_duplicate_witness :
  In "B" (users (snd stTwoDays)) /\
  handleAddUser "B" stTwoDays = (Some (AlertMemberExists "B"), stTwoDays).
Proof.
  split; [simpl; auto |].
  apply (add_member_duplicate "B" stTwoDays). simpl. auto.
Defined.

(* ================================================================== *)
(** * [handleRemoveUser] *)

Section Remove.

Variable userToRemove : string.

Lemma oget_odel_eq {V} k (o : dict V) : oget k (odel k o) = None.
Proof. apply oget_None, not_In_okeys_odel. Qed.

Lemma scrub_idem rec : scrub userToRemove (scrub userToRemove rec)
                       = scrub userToRemove rec.
Proof.
  unfold scrub. destruct (truthy (oget userToRemove rec)) eqn:T.
  - now rewrite oget_odel_eq.
  - now rewrite T.
Qed.

Lemma cell_overflow (h : Heap) l : (List.length h <= l)%nat -> cell h l = [].
Proof. intros L. unfold cell. now apply nth_overflow. Qed.

(** One step of the [forEach] rewrites the cell it refers to. *)
Lemma removeFromDay_cell r h date l :
  cell (removeFromDay r userToRemove h date) l =
  if refersTo r l date then scrub userToRemove (cell h l) else cell h l.
Proof.
  unfold removeFromDay, refersTo.
  destruct (oget date r) as [l0 |]; auto.
  destruct (truthy (oget userToRemove (cell h l0))) eqn:T.
  - rewrite cell_update.
    destruct (Nat.eqb_spec l0 l) as [-> | N]; simpl; auto.
    destruct (Nat.ltb_spec l (List.length h)) as [L | L].
    + unfold scrub. now rewrite T.
    + rewrite cell_overflow in T by auto. discriminate.
  - destruct (Nat.eqb_spec l0 l) as [-> | N]; auto.
    unfold scrub. now rewrite T.
Qed.

Lemma remove_fold_cell r ks : forall h l,
  cell (fold_left (removeFromDay r userToRemove) ks h) l =
  if existsb (refersTo r l) ks then scrub userToRemove (cell h l)
  else cell h l.
Proof.
  induction ks as [| d ks IH]; intros h l; simpl; auto.
  rewrite IH, removeFromDay_cell.
  destruct (refersTo r l d), (existsb (refersTo r l) ks); simpl; auto.
  apply scrub_idem.
Qed.

(** After the loop, every date of the object shows a scrubbed cell. *)
Lemma remove_view h r :
  NoDup (okeys r) ->
  deref (fold_left (removeFromDay r userToRemove) (okeys r) h) r =
  map (fun p => (fst p, scrub userToRemove (snd p))) (deref h r).
Proof.
  intros N. unfold deref. rewrite map_map. apply map_ext_in.
  intros [d l] I. simpl. f_equal. rewrite remove_fold_cell.
  assert (E : existsb (refersTo r l) (okeys r) = true).
  { apply existsb_exists. exists d. split.
    - apply (in_map fst) in I. exact I.
    - unfold refersTo. rewrite (oget_of_In d l r N I). apply Nat.eqb_refl. }
  now rewrite E.
Qed.

Lemma scrub_clears rec :
  forallb (fun q => negb (snd q =? 0)) rec = true ->
  ~ In userToRemove (okeys (scrub userToRemove rec)).
Proof.
  intros Z0. unfold scrub.
  destruct (oget userToRemove rec) as [c |] eqn:E; simpl.
  - rewrite forallb_forall in Z0.
    specialize (Z0 _ (oget_Some_In _ _ _ E)). simpl in Z0. rewrite Z0.
    apply not_In_okeys_odel.
  - now apply oget_None.
Qed.

End Remove.

Lemma wfState_spec st :
  wfState st = true ->
  NoDup (okeys (records (snd st))) /\ closed st = true.
Proof.
  unfold wfState. intros W. apply andb_true_iff in W. destruct W as [W C].
  apply wfRecords_spec in W. destruct W as [N _].
  unfold view in N. rewrite okeys_deref in N. auto.
Qed.

Lemma handleRemoveUser_view name st :
  wfState st = true ->
  view (handleRemoveUser true name st) =
  map (fun p => (fst p, scrub name (snd p))) (view st).
Proof.
  intros W. apply wfState_spec in W. destruct W as [N _].
  destruct st as [h d]. unfold view. simpl in *. now apply remove_view.
Qed.

(** What is read through the old [records] after the call is what the
    new state shows: the cells are shared. *)
Lemma handleRemoveUser_shares name st :
  deref (fst (handleRemoveUser true name st)) (records (snd st))
  = view (handleRemoveUser true name st).
Proof. destruct st as [h d]. reflexivity. Qed.

(** [handleAddUser] does not touch the heap. *)
Lemma handleAddUser_frame name st :
  deref (fst (snd (handleAddUser name st))) (records (snd st)) = view st.
Proof.
  destruct st as [h d]. unfold handleAddUser.
  destruct (includes (users d) name); reflexivity.
Qed.

(** C1 (the code breaks it): every mutation is to return a new store and
    leave the store it was given as it was, the per-date sub-maps
    included.  [handleCheckIn] and [handleAddUser] do
    ([handleCheckIn_frame], [handleAddUser_frame]); [handleRemoveUser]
    copies only the [records] object and deletes from the per-date
    objects it shares with the previous state.  Here the store holds one
    entry, ["A"] with 3 chapters on 2024-05-01: before the call the old
    [records] shows that entry, after the call the same old [records]
    shows an empty sub-map for that date. *)
Theorem remove_member_mutates_published_store :
  deref (fst stOneEntry) (records (snd stOneEntry))
    = [("2024-05-01", [("A", 3)])] /\
  deref (fst (handleRemoveUser true "A" stOneEntry)) (records (snd stOneEntry))
    = [("2024-05-01", [])].
Proof. split; reflexivity. Qed.

(** The same for every store in which the removed member has an entry:
    the old [records], read after the call, has lost it. *)
Lemma remove_member_mutates_every_store name st date :
  wfState st = true ->
  checkedIn (view st) date name = true ->
  checkedIn (deref (fst (handleRemoveUser true name st)) (records (snd st)))
            date name = false.
Proof.
  intros W T. rewrite handleRemoveUser_shares, handleRemoveUser_view by auto.
  unfold checkedIn in *.
  induction (view st) as [| [d rec] r IH]; simpl in *; [discriminate |].
  destruct (String.eqb date d); auto.
  unfold scrub. rewrite T, oget_odel_eq. reflexivity.
Qed.

(** C6: after [handleRemoveUser] (confirmed) on a store whose counts are
    all non-zero, the name is not in [users], no per-date sub-map of the
    resulting store has a key for the name, and [monthlyStats] over the
    resulting store, at any time and on any host, returns rows none of
    which is for the name. *)
Theorem remove_member_leaves_no_trace name st tza now :
  wfState st = true ->
  countsNonzero (view st) = true ->
  ~ In name (users (snd (handleRemoveUser true name st))) /\
  (forall date rec, In (date, rec) (view (handleRemoveUser true name st)) ->
                    ~ In name (okeys rec)) /\
  (forall date, entry (view (handleRemoveUser true name st)) date name = None) /\
  exists rows,
    (forall fuel,
       (List.length (view (handleRemoveUser true name st)) < fuel)%nat ->
       monthlyStats fuel tza now
         (users (snd (handleRemoveUser true name st)))
         (view (handleRemoveUser true name st)) = Some rows) /\
    ~ In name (map row_user rows).
Proof.
  intros W Z0.
  assert (U : ~ In name (users (snd (handleRemoveUser true name st)))).
  { destruct st as [h d]. simpl. rewrite filter_In. intros [_ H].
    now rewrite String.eqb_refl in H. }
  assert (K : forall date rec,
             In (date, rec) (view (handleRemoveUser true name st)) ->
             ~ In name (okeys rec)).
  { intros date rec. rewrite handleRemoveUser_view by auto.
    rewrite in_map_iff. intros ([d rec0] & E & I). simpl in E.
    injection E as _ <-. apply scrub_clears.
    unfold countsNonzero in Z0. rewrite forallb_forall in Z0.
    apply (Z0 _ I). }
  repeat split; auto.
  - intros date. unfold entry.
    destruct (oget date (view (handleRemoveUser true name st))) as [rec |] eqn:E;
      auto.
    apply oget_None. eapply K. eapply oget_Some_In; eauto.
  - unfold monthlyStats.
    destruct (monthlyStatsFor_rows tza now
                (view (handleRemoveUser true name st))
                (users (snd (handleRemoveUser true name st)))
                (getMonthFromDateString (getTodayDateString now)))
      as (rows & R & P & _).
    exists rows. split; auto.
    intros I. apply U. eapply report_users; eauto.
Qed.

(** Why the counts have to be non-zero: the deletion is guarded by the
    truthiness of the count, so an entry that holds 0 stays. *)
Example remove_member_keeps_zero_count :
  view (handleRemoveUser true "A" stZeroEntry) = [("2024-05-01", [("A", 0)])].
Proof. reflexivity. Qed.

Lemma remove_member_leaves_no_trace_witness :
  wfState stTwoDays = true /\
  countsNonzero (view stTwoDays) = true /\
  ~ In "A" (users (snd (handleRemoveUser true "A" stTwoDays))) /\
  (forall date rec,
     In (date, rec) (view (handleRemoveUser true "A" stTwoDays)) ->
     ~ In "A" (okeys rec)) /\
  (forall date,
     entry (view (handleRemoveUser true "A" stTwoDays)) date "A" = None) /\
  exists rows,
    (forall fuel,
       (List.length (view (handleRemoveUser true "A" stTwoDays)) < fuel)%nat ->
       monthlyStats fuel 0 noon_2024_05_15
         (users (snd (handleRemoveUser true "A" stTwoDays)))
         (view (handleRemoveUser true "A" stTwoDays)) = Some rows) /\
    ~ In "A" (map row_user rows).
Proof.
  split; [reflexivity |]. split; [reflexivity |].
  apply (remove_member_leaves_no_trace "A" stTwoDays 0 noon_2024_05_15);
    reflexivity.
Defined.

(* ================================================================== *)
(** * [chartData] *)

Section Chart.

Variable tza : Z.
Hypothesis Htza : 0 <= tza < msPerDay.

Lemma Day_LocalTime_midnight day :
  Day (LocalTime tza (MakeDate day 0)) = day.
Proof.
  unfold LocalTime, MakeDate. rewrite Z.add_0_r.
  apply (Day_MakeDate day tza Htza).
Qed.

Lemma getDate_midnight_UTC day : getDate tza (UTC tza (MakeDate day 0))
                                 = DateFromDay day.
Proof.
  unfold getDate, DateFromTime, LocalTime, UTC.
  replace (MakeDate day 0 - tza + tza) with (MakeDate day 0) by lia.
  now rewrite Day_MakeDate by (unfold msPerDay; lia).
Qed.

(** The last day of the month is the day before the first of the next. *)
Lemma MakeDay_next_month y m :
  0 <= m <= 11 -> MakeDay y (m + 1) 0 = MakeDay y m (DaysInMonth y m).
Proof.
  intros M. unfold MakeDay, DaysInMonth.
  destruct (Z.eq_dec m 11) as [-> | N].
  - change ((11 + 1) / 12) with 1. change ((11 + 1) mod 12) with 0.
    change (11 / 12) with 0. change (11 mod 12) with 11.
    replace (y + 0) with y by lia.
    rewrite DayFromYear_succ. unfold DaysInYear, monthStart.
    destruct (leapDays_01 y) as [-> | ->]; simpl; lia.
  - rewrite !Z.div_small, !Z.mod_small, !Z.add_0_r by lia. lia.
Qed.

Section Month.

Variables y m : Z.
Hypothesis Hy : 100 <= y <= 9999.
Hypothesis Hm : 0 <= m <= 11.

Lemma chartDaysInMonth_month :
  chartDaysInMonth tza (isoMonth y m) = Num (DaysInMonth y m).
Proof.
  pose proof (DaysInMonth_le y m Hm) as B.
  unfold chartDaysInMonth.
  rewrite parseDate_isoMonth by lia.
  unfold getFullYear, getMonth, YearFromTime, MonthFromTime.
  rewrite Day_LocalTime_midnight.
  destruct (fields_MakeDay y m 1 Hm ltac:(lia)) as (-> & -> & _).
  unfold newDateYMD, MakeFullYear.
  destruct (Z.leb_spec 0 y), (Z.leb_spec y 99); simpl; try lia.
  rewrite getDate_midnight_UTC, MakeDay_next_month by auto.
  now destruct (fields_MakeDay y m (DaysInMonth y m) Hm ltac:(lia))
    as (_ & _ & ->).
Qed.

Lemma dayOfDateString_isoDate dt :
  1 <= dt <= DaysInMonth y m ->
  dayOfDateString tza (isoDate y m dt) = Num dt.
Proof.
  intros D. unfold dayOfDateString. rewrite parseDate_isoDate by lia.
  unfold getDate, DateFromTime. rewrite Day_LocalTime_midnight.
  now destruct (fields_MakeDay y m dt Hm D) as (_ & _ & ->).
Qed.

Lemma nhas_map (g : Z -> Z) j l :
  In j l -> nhas (Num (Z.of_nat j))
              (map (fun i => (Num (Z.of_nat i), g (Z.of_nat i))) l) = true.
Proof.
  induction l as [| x l IH]; simpl; [tauto |].
  intros [-> | I].
  - now rewrite Z.eqb_refl.
  - rewrite IH by auto. apply orb_true_r.
Qed.

Lemma nreplace_map (g : Z -> Z) j v l :
  NoDup l ->
  nreplace (Num (Z.of_nat j)) v
    (map (fun i => (Num (Z.of_nat i), g (Z.of_nat i))) l) =
  map (fun i => (Num (Z.of_nat i),
                 if Z.of_nat i =? Z.of_nat j then v else g (Z.of_nat i))) l.
Proof.
  induction 1 as [| x l N1 N2 IH]; simpl; auto.
  destruct (Z.eqb_spec (Z.of_nat j) (Z.of_nat x)) as [E | N].
  - apply Nat2Z.inj in E. subst x. rewrite Z.eqb_refl. f_equal.
    apply map_ext_in. intros i I.
    destruct (Z.eqb_spec (Z.of_nat i) (Z.of_nat j)) as [E | _]; auto.
    apply Nat2Z.inj in E. subst i. tauto.
  - destruct (Z.eqb_spec (Z.of_nat x) (Z.of_nat j)); [congruence |].
    now rewrite IH.
Qed.

Lemma nhas_above (g : Z -> Z) j l :
  Forall (fun i => (i < j)%nat) l ->
  nhas (Num (Z.of_nat j))
       (map (fun i => (Num (Z.of_nat i), g (Z.of_nat i))) l) = false.
Proof.
  induction 1 as [| x l L F IH]; simpl; auto.
  rewrite IH, orb_false_r. apply Z.eqb_neq. lia.
Qed.

Lemma ninsert_above (g : Z -> Z) j v l :
  Forall (fun i => (i < j)%nat) l ->
  ninsert (Num (Z.of_nat j)) v
          (map (fun i => (Num (Z.of_nat i), g (Z.of_nat i))) l) =
  (map (fun i => (Num (Z.of_nat i), g (Z.of_nat i))) l
   ++ [(Num (Z.of_nat j), v)])%list.
Proof.
  induction 1 as [| x l L F IH]; simpl; auto.
  destruct (Z.ltb_spec (Z.of_nat j) (Z.of_nat x)); [lia |].
  now rewrite IH.
Qed.

(** The initial loop builds the table of the days 1 to [n], all 0. *)
Lemma initCounts_dayTable n :
  initCounts (Num n) = dayTable (Z.to_nat n) (fun _ => 0).
Proof.
  unfold initCounts. induction (Z.to_nat n) as [| k IH]; [reflexivity |].
  rewrite seq_S, fold_left_app, IH. cbn [fold_left].
  assert (F : Forall (fun i => (i < 1 + k)%nat) (seq 1 k)).
  { apply Forall_forall. intros i I. apply in_seq in I. lia. }
  unfold nset, dayTable.
  rewrite (nhas_above (fun _ => 0) (1 + k) (seq 1 k) F).
  rewrite (ninsert_above (fun _ => 0) (1 + k) 0 (seq 1 k) F).
  now rewrite seq_S, map_app.
Qed.

(** Storing under a day of the month replaces the count of that day. *)
Lemma nset_dayTable n g dt v :
  1 <= dt <= Z.of_nat n ->
  nset (Num dt) v (dayTable n g) =
  dayTable n (fun i => if i =? dt then v else g i).
Proof.
  intros D. unfold nset, dayTable.
  rewrite <- (Z2Nat.id dt) by lia.
  rewrite nhas_map by (apply in_seq; lia).
  apply nreplace_map, seq_NoDup.
Qed.

Lemma dayTable_ext n g g' :
  (forall i, 1 <= i <= Z.of_nat n -> g i = g' i) ->
  dayTable n g = dayTable n g'.
Proof.
  intros E. unfold dayTable. apply map_ext_in. intros i I.
  apply in_seq in I. rewrite E by lia. reflexivity.
Qed.

(** The loop over the keys visits each pair of the object once. *)
Lemma fold_counts_pairs (r all : Records) month : forall dc,
  (forall p, In p r -> oget (fst p) all = Some (snd p)) ->
  fold_left (countDate tza all month) (okeys r) dc =
  fold_left (fun dc p =>
               if String.eqb (getMonthFromDateString (fst p)) month
               then nset (dayOfDateString tza (fst p))
                         (Z.of_nat (List.length (okeys (snd p)))) dc
               else dc) r dc.
Proof.
  induction r as [| p r IH]; intros dc H; simpl; auto.
  rewrite IH by (intros; apply H; simpl; auto).
  f_equal. unfold countDate. rewrite (H p) by (simpl; auto). reflexivity.
Qed.

Lemma fill_dayTable (r : Records) : forall g,
  NoDup (okeys r) ->
  forallb isDateKey (okeys r) = true ->
  fold_left (fun dc p =>
               if String.eqb (getMonthFromDateString (fst p)) (isoMonth y m)
               then nset (dayOfDateString tza (fst p))
                         (Z.of_nat (List.length (okeys (snd p)))) dc
               else dc) r (dayTable (Z.to_nat (DaysInMonth y m)) g) =
  dayTable (Z.to_nat (DaysInMonth y m))
    (fun i => match oget (isoDate y m i) r with
              | Some rec => Z.of_nat (List.length rec)
              | None => g i
              end).
Proof.
  pose proof (DaysInMonth_le y m Hm) as B.
  induction r as [| [k rec] r IH]; intros g N V; [reflexivity |].
  simpl in N, V. inversion N as [| ? ? N1 N2]; subst.
  apply andb_true_iff in V. destruct V as [Vk V].
  destruct (isDateKey_spec k Vk) as (y' & m' & dt' & Y' & M' & D' & ->).
  pose proof (DaysInMonth_le y' m' M') as B'.
  cbn [fold_left fst snd].
  rewrite month_isoDate by auto.
  destruct (String.eqb_spec (isoMonth y' m') (isoMonth y m)) as [E | NE].
  - apply isoMonth_inj in E; auto. destruct E as [-> ->].
    rewrite dayOfDateString_isoDate, nset_dayTable, IH by (auto; lia).
    apply dayTable_ext. intros i I. cbn [oget].
    destruct (String.eqb_spec (isoDate y m i) (isoDate y m dt')) as [E | NE].
    + apply isoDate_inj in E; try lia. destruct E as (_ & _ & ->).
      apply oget_None in N1. rewrite N1, Z.eqb_refl.
      unfold okeys. now rewrite length_map.
    + destruct (Z.eqb_spec i dt') as [-> | _]; [congruence | reflexivity].
  - rewrite IH by auto. apply dayTable_ext. intros i I. cbn [oget].
    destruct (String.eqb_spec (isoDate y m i) (isoDate y' m' dt'))
      as [E | _]; auto.
    apply isoDate_inj in E; try lia. destruct E as (-> & -> & _). congruence.
Qed.

(** For a host that is not behind UTC, [chartData] is the series of the
    month. *)
Lemma chartDataFor_dailyActivity records :
  wfRecords records = true ->
  forallb isDateKey (okeys records) = true ->
  chartDataFor tza records (isoMonth y m) = dailyActivity records y m.
Proof.
  intros W V. apply wfRecords_spec in W. destruct W as [N _].
  unfold chartDataFor, fillCounts.
  rewrite chartDaysInMonth_month, initCounts_dayTable.
  rewrite fold_counts_pairs
    by (intros [d rec] I; simpl; now apply oget_of_In).
  rewrite fill_dayTable by auto.
  unfold dayTable, dailyActivity, checkedInCount. rewrite map_map.
  reflexivity.
Qed.

End Month.

End Chart.

(** C3 (the code breaks it): [chartData] is to have one point for each
    day of the target month.  On a host five hours behind UTC, with
    today in May 2024 (31 days): [new Date("2024-05")] is UTC midnight of
    May 1, which is April 30 locally, so [daysInMonth] is the length of
    April; the chart of the empty store has 30 points, and the two
    members of May 2 are counted under day 1.  For hosts that are not
    behind UTC the claim holds ([chartDataFor_dailyActivity]). *)
Theorem chart_is_short_behind_UTC :
  getMonthFromDateString (getTodayDateString noon_2024_05_15) = "2024-05" /\
  DaysInMonth 2024 4 = 31 /\
  List.length (chartData utcMinus5 noon_2024_05_15 []) = 30%nat /\
  chartData utcMinus5 noon_2024_05_15 [("2024-05-02", [("A", 2); ("B", 1)])]
    = mkPoint (Num 1) 2
      :: map (fun i => mkPoint (Num (Z.of_nat i)) 0) (seq 2 29).
Proof. repeat split; reflexivity. Qed.

(** [chartDataFor_dailyActivity] at work: May 2024 on a host at UTC. *)
Example chartDataFor_dailyActivity_may :
  chartDataFor 0 recTwoMonths (isoMonth 2024 4)
  = dailyActivity recTwoMonths 2024 4.
Proof.
  apply chartDataFor_dailyActivity;
    try reflexivity; unfold msPerDay; lia.
Qed.

(* ================================================================== *)
(** * More about the streak walk and the date keys *)



Lemma fourDigitYear_spec now :
  fourDigitYear now = true -> 0 <= YearFromDay (Day now) <= 9999.
Proof.
  unfold fourDigitYear, YearFromTime. intros H.
  apply andb_true_iff in H. rewrite !Z.leb_le in H. exact H.
Qed.

Lemma toISODate_isoDate now :
  toISODate now
  = isoDate (YearFromTime now) (MonthFromTime now) (DateFromTime now).
Proof. reflexivity. Qed.

Lemma Day_mul day : Day (MakeDate day 0) = day.
Proof. apply Day_MakeDate. unfold msPerDay. lia. Qed.

Lemma today_key_parse now :
  fourDigitYear now = true ->
  parseDate (getTodayDateString now) = Some (Day now * msPerDay) /\
  toISODate (Day now * msPerDay) = getTodayDateString now /\
  String.length (getTodayDateString now) = 10%nat.
Proof.
  intros Y. apply fourDigitYear_spec in Y.
  pose proof (MonthFromDay_range (Day now)) as M.
  pose proof (DateFromDay_range (Day now)) as D.
  repeat split.
  - unfold getTodayDateString, toISODate, dateKeyOfDay.
    rewrite parseDate_isoDate by auto.
    rewrite MakeDay_fields. unfold MakeDate. f_equal. lia.
  - unfold getTodayDateString, toISODate. f_equal.
    replace (Day now * msPerDay) with (MakeDate (Day now) 0)
      by (unfold MakeDate; lia).
    apply Day_mul.
  - unfold getTodayDateString, toISODate, dateKeyOfDay.
    now apply length_isoDate.
Qed.

Lemma today_key_is_date_key now :
  fourDigitYear now = true -> isDateKey (getTodayDateString now) = true.
Proof.
  intros Y. destruct (today_key_parse now Y) as (P & T & L).
  unfold isDateKey. rewrite P, T, L, String.eqb_refl. reflexivity.
Qed.

(** X2: today's date key, read back by [new Date], is the start of
    today (UTC), which [toISOString] shows as the same key; the key has
    ten characters and is a date key. *)
Theorem today_key_round_trip now :
  fourDigitYear now = true ->
  parseDate (getTodayDateString now) = Some (Day now * msPerDay) /\
  toISODate (Day now * msPerDay) = getTodayDateString now /\
  String.length (getTodayDateString now) = 10%nat /\
  isDateKey (getTodayDateString now) = true.
Proof.
  intros Y. destruct (today_key_parse now Y) as (P & T & L).
  repeat split; auto. now apply today_key_is_date_key.
Qed.

Lemma today_key_round_trip_witness :
  fourDigitYear noon_2024_05_15 = true /\
  parseDate (getTodayDateString noon_2024_05_15)
    = Some (Day noon_2024_05_15 * msPerDay) /\
  toISODate (Day noon_2024_05_15 * msPerDay)
    = getTodayDateString noon_2024_05_15 /\
  String.length (getTodayDateString noon_2024_05_15) = 10%nat /\
  isDateKey (getTodayDateString noon_2024_05_15) = true.
Proof.
  split; [reflexivity |].
  apply (today_key_round_trip noon_2024_05_15). reflexivity.
Defined.

Lemma month_of_today now :
  fourDigitYear now = true ->
  getMonthFromDateString (getTodayDateString now)
  = isoMonth (YearFromTime now) (MonthFromTime now).
Proof.
  intros Y. apply fourDigitYear_spec in Y.
  pose proof (MonthFromDay_range (Day now)) as M.
  pose proof (DateFromDay_range (Day now)) as D.
  unfold getTodayDateString, toISODate, dateKeyOfDay.
  now apply month_isoDate.
Qed.

(** X3: two clock readings have the same month key exactly when they
    fall in the same month of the same year. *)
Theorem month_key_groups_by_month now now' :
  fourDigitYear now = true -> fourDigitYear now' = true ->
  (getMonthFromDateString (getTodayDateString now)
   = getMonthFromDateString (getTodayDateString now')
   <-> YearFromTime now = YearFromTime now' /\
       MonthFromTime now = MonthFromTime now').
Proof.
  intros Y Y'. rewrite !month_of_today by auto. split.
  - intros E. apply isoMonth_inj in E; auto; apply MonthFromDay_range.
  - intros [-> ->]. reflexivity.
Qed.

Lemma month_key_groups_by_month_witness :
  fourDigitYear noon_2024_05_15 = true /\
  fourDigitYear evening_2024_05_15 = true /\
  (getMonthFromDateString (getTodayDateString noon_2024_05_15)
   = getMonthFromDateString (getTodayDateString evening_2024_05_15)
   <-> YearFromTime noon_2024_05_15 = YearFromTime evening_2024_05_15 /\
       MonthFromTime noon_2024_05_15 = MonthFromTime evening_2024_05_15).
Proof.
  split; [reflexivity |]. split; [reflexivity |].
  apply (month_key_groups_by_month noon_2024_05_15 evening_2024_05_15);
    reflexivity.
Defined.

(** X4: on a host that is not behind UTC, the chart of a store with
    well-formed date keys has one point for each day of the current
    month, numbered from 1, each with the number of names that have an
    entry on that day. *)
Theorem chart_complete_ahead_of_UTC tza now records :
  0 <= tza < msPerDay ->
  100 <= YearFromTime now <= 9999 ->
  wfRecords records = true ->
  forallb isDateKey (okeys records) = true ->
  chartData tza now records
  = dailyActivity records (YearFromTime now) (MonthFromTime now) /\
  Z.of_nat (List.length (chartData tza now records))
  = DaysInMonth (YearFromTime now) (MonthFromTime now).
Proof.
  intros T Y W V.
  assert (E : chartData tza now records
              = dailyActivity records (YearFromTime now) (MonthFromTime now)).
  { unfold chartData. rewrite month_of_today.
    - apply chartDataFor_dailyActivity; auto. apply MonthFromDay_range.
    - unfold fourDigitYear.
      destruct (Z.leb_spec 0 (YearFromTime now)),
               (Z.leb_spec (YearFromTime now) 9999); auto; lia. }
  split; [exact E |].
  rewrite E. unfold dailyActivity. rewrite length_map, length_seq.
  pose proof (DaysInMonth_le (YearFromTime now) (MonthFromTime now)
                (MonthFromDay_range _)).
  lia.
Qed.

Lemma chart_complete_ahead_of_UTC_witness :
  0 <= 0 < msPerDay /\
  100 <= YearFromTime noon_2024_05_15 <= 9999 /\
  wfRecords recTwoMonths = true /\
  forallb isDateKey (okeys recTwoMonths) = true /\
  chartData 0 noon_2024_05_15 recTwoMonths
  = dailyActivity recTwoMonths (YearFromTime noon_2024_05_15)
      (MonthFromTime noon_2024_05_15) /\
  Z.of_nat (List.length (chartData 0 noon_2024_05_15 recTwoMonths))
  = DaysInMonth (YearFromTime noon_2024_05_15)
      (MonthFromTime noon_2024_05_15).
Proof.
  split; [unfold msPerDay; lia |].
  split; [vm_compute; split; discriminate |].
  split; [reflexivity |]. split; [reflexivity |].
  apply (chart_complete_ahead_of_UTC 0 noon_2024_05_15 recTwoMonths);
    try reflexivity; [unfold msPerDay; lia | vm_compute; split; discriminate].
Defined.

(* ================================================================== *)
(** * More about the handlers *)

Section HandlersMore.

Lemma deref_oset h k l r :
  deref h (oset k l r) = oset k (cell h l) (deref h r).
Proof.
  induction r as [| [k' l'] r IH]; simpl; auto.
  destruct (String.eqb k k'); simpl; [reflexivity | now rewrite IH].
Qed.

Lemma oset_same {V} k (v : V) o : oget k o = Some v -> oset k v o = o.
Proof.
  induction o as [| [k' v'] o IH]; simpl; [discriminate |].
  destruct (String.eqb_spec k k') as [-> | N].
  - now intros [= ->].
  - intros H. now rewrite IH.
Qed.

Lemma oget_odel_neq {V} k k' (o : dict V) :
  k <> k' -> oget k (odel k' o) = oget k o.
Proof.
  intros N. unfold odel. induction o as [| [k2 v2] o IH]; simpl; auto.
  destruct (String.eqb_spec k' k2) as [<- | N2]; simpl.
  - destruct (String.eqb_spec k k'); [congruence | exact IH].
  - now rewrite IH.
Qed.

Lemma In_odel {V} k (o : dict V) p : In p (odel k o) -> In p o.
Proof. unfold odel. rewrite filter_In. tauto. Qed.

Lemma In_scrub name rec p : In p (scrub name rec) -> In p rec.
Proof.
  unfold scrub. destruct (truthy (oget name rec)); [apply In_odel | auto].
Qed.

Lemma oget_scrub_neq name m rec :
  m <> name -> oget m (scrub name rec) = oget m rec.
Proof.
  intros N. unfold scrub.
  destruct (truthy (oget name rec)); [now apply oget_odel_neq | auto].
Qed.

Lemma NoDup_okeys_odel {V} k (o : dict V) :
  NoDup (okeys o) -> NoDup (okeys (odel k o)).
Proof. intros N. rewrite okeys_odel. now apply NoDup_filter. Qed.

Lemma NoDup_okeys_scrub name rec :
  NoDup (okeys rec) -> NoDup (okeys (scrub name rec)).
Proof.
  unfold scrub. destruct (truthy (oget name rec));
    [apply NoDup_okeys_odel | auto].
Qed.

Lemma entry_map_scrub name m (r : Records) date :
  m <> name ->
  entry (map (fun p => (fst p, scrub name (snd p))) r) date m
  = entry r date m.
Proof.
  intros N. unfold entry.
  induction r as [| [d rec] r IH]; simpl; auto.
  destruct (String.eqb date d); [now apply oget_scrub_neq | auto].
Qed.

Lemma todays_deref now h r :
  DailyReport_todaysRecords now (deref h r)
  = match oget (getTodayDateString now) r with
    | Some l => cell h l
    | None => []
    end.
Proof.
  unfold DailyReport_todaysRecords. rewrite oget_deref.
  destruct (oget (getTodayDateString now) r); reflexivity.
Qed.

(** What [handleCheckIn] does to the store a reader sees. *)
Lemma view_handleCheckIn now user chapters st :
  closed st = true ->
  view (handleCheckIn now user chapters st)
  = oset (getTodayDateString now)
         (oset user chapters (DailyReport_todaysRecords now (view st)))
         (view st).
Proof.
  destruct st as [h d]. intros C. unfold view. simpl.
  rewrite deref_oset, cell_app_new, deref_app by exact C.
  now rewrite todays_deref.
Qed.

Lemma length_remove_fold r name ks : forall h,
  List.length (fold_left (removeFromDay r name) ks h) = List.length h.
Proof.
  induction ks as [| k ks IH]; intros h; simpl; auto.
  rewrite IH. unfold removeFromDay.
  destruct (oget k r); auto.
  destruct (truthy _); auto using length_update.
Qed.

Lemma closed_handleRemoveUser confirmed name st :
  closed st = true -> closed (handleRemoveUser confirmed name st) = true.
Proof.
  destruct confirmed; auto. destruct st as [h d]. unfold closed. simpl.
  now rewrite length_remove_fold.
Qed.

Lemma handleRemoveUser_view_gen name st :
  NoDup (okeys (records (snd st))) ->
  view (handleRemoveUser true name st)
  = map (fun p => (fst p, scrub name (snd p))) (view st).
Proof.
  destruct st as [h d]. unfold view. simpl. apply remove_view.
Qed.

Lemma wfRecords_intro (r : Records) :
  NoDup (okeys r) -> (forall p, In p r -> NoDup (okeys (snd p))) ->
  wfRecords r = true.
Proof.
  intros N F. unfold wfRecords, wfObject. apply andb_true_iff. split.
  - now apply distinct_NoDup.
  - apply forallb_forall. intros p I. apply distinct_NoDup. auto.
Qed.

Lemma wfRecords_oset (r : Records) k rec :
  wfRecords r = true -> NoDup (okeys rec) -> wfRecords (oset k rec r) = true.
Proof.
  intros W N. apply wfRecords_spec in W. destruct W as [NK F].
  rewrite Forall_forall in F. apply wfRecords_intro.
  - now apply NoDup_okeys_oset.
  - intros p I. apply In_oset_inv in I. destruct I as [-> | I]; auto.
Qed.

Lemma wfRecords_scrub name (r : Records) :
  wfRecords r = true ->
  wfRecords (map (fun p => (fst p, scrub name (snd p))) r) = true.
Proof.
  intros W. apply wfRecords_spec in W. destruct W as [NK F].
  rewrite Forall_forall in F. apply wfRecords_intro.
  - unfold okeys in *. now rewrite map_map.
  - intros p I. apply in_map_iff in I. destruct I as (q & <- & I).
    simpl. apply NoDup_okeys_scrub. auto.
Qed.

Lemma wfState_handleCheckIn now user chapters st :
  wfState st = true -> wfState (handleCheckIn now user chapters st) = true.
Proof.
  intros W. pose proof W as W0. unfold wfState in W.
  apply andb_true_iff in W. destruct W as [WR C].
  unfold wfState. apply andb_true_iff. split.
  - rewrite view_handleCheckIn by auto. apply wfRecords_oset; auto.
    apply NoDup_okeys_oset. unfold DailyReport_todaysRecords.
    now apply wfState_today_cell.
  - now apply closed_handleCheckIn.
Qed.

Lemma wfState_handleRemoveUser confirmed name st :
  wfState st = true -> wfState (handleRemoveUser confirmed name st) = true.
Proof.
  intros W. destruct confirmed; auto.
  pose proof (wfState_spec st W) as [N C].
  unfold wfState in *. apply andb_true_iff in W. destruct W as [WR _].
  apply andb_true_iff. split.
  - rewrite handleRemoveUser_view_gen by auto. now apply wfRecords_scrub.
  - now apply closed_handleRemoveUser.
Qed.

Lemma wfState_handleAddUser name st :
  wfState st = true -> wfState (snd (handleAddUser name st)) = true.
Proof.
  destruct st as [h d]. unfold handleAddUser.
  destruct (includes (users d) name); auto.
Qed.

Lemma wfState_dispatch now ev st :
  wfState st = true -> wfState (snd (dispatch now ev st)) = true.
Proof.
  intros W. destruct ev as [u c | es | n | n b]; simpl.
  - unfold CheckInForm_handleSubmit. destruct c as [c |]; auto.
    destruct (String.eqb u "" || (c <=? 0)); simpl;
      auto using wfState_handleCheckIn.
  - unfold DailyReport_handleSave. destruct es as [[u c] |]; auto.
    destruct (0 <? _); simpl; auto using wfState_handleCheckIn.
  - now apply wfState_handleAddUser.
  - now apply wfState_handleRemoveUser.
Qed.

End HandlersMore.

Section CheckInMore.

Variables (now : Z) (user : string) (chapters : Z) (st : State).

(** X5: for a reader, [handleCheckIn] is the update
    [entries[today][user] = chapters] and nothing else: today's sub-map
    is the old one (or an empty one) with [user] set, put under today's
    key; the members are the same. *)
Theorem check_in_is_the_pure_update :
  closed st = true ->
  view (handleCheckIn now user chapters st)
  = oset (getTodayDateString now)
         (oset user chapters (DailyReport_todaysRecords now (view st)))
         (view st) /\
  users (snd (handleCheckIn now user chapters st)) = users (snd st).
Proof.
  intros C. split; [now apply view_handleCheckIn | apply handleCheckIn_users].
Qed.




End CheckInMore.

Lemma check_in_is_the_pure_update_witness :
  closed stTwoDays = true /\
  view (handleCheckIn noon_2024_05_15 "B" 7 stTwoDays)
  = oset (getTodayDateString noon_2024_05_15)
         (oset "B" 7 (DailyReport_todaysRecords noon_2024_05_15
                        (view stTwoDays)))
         (view stTwoDays) /\
  users (snd (handleCheckIn noon_2024_05_15 "B" 7 stTwoDays))
  = users (snd stTwoDays).
Proof.
  split; [reflexivity |].
  apply (check_in_is_the_pure_update noon_2024_05_15 "B" 7 stTwoDays).
  reflexivity.
Defined.




(** X8: opening the editor on a shown count and saving it as it is
    closes the editor without an alert and leaves the store's content
    as it was. *)
Theorem edit_and_save_unchanged now user c st :
  closed st = true ->
  entry (view st) (getTodayDateString now) user = Some c ->
  0 < c ->
  DailyReport_save now (handleStartEdit user c) st
    = (None, None, handleCheckIn now user c st) /\
  view (handleCheckIn now user c st) = view st /\
  users (snd (handleCheckIn now user c st)) = users (snd st).
Proof.
  intros C E P. repeat split.
  - unfold DailyReport_save, handleStartEdit, DailyReport_handleSave.
    destruct (Z.ltb_spec 0 c); [reflexivity | lia].
  - rewrite view_handleCheckIn by auto.
    unfold entry, DailyReport_todaysRecords in *.
    destruct (oget (getTodayDateString now) (view st)) as [rec |] eqn:T;
      [| discriminate].
    rewrite (oset_same user c rec E). now apply oset_same.
  - apply handleCheckIn_users.
Qed.

Lemma edit_and_save_unchanged_witness :
  closed stTwoDays = true /\
  entry (view stTwoDays) (getTodayDateString noon_2024_05_15) "A" = Some 2 /\
  0 < 2 /\
  DailyReport_save noon_2024_05_15 (handleStartEdit "A" 2) stTwoDays
    = (None, None, handleCheckIn noon_2024_05_15 "A" 2 stTwoDays) /\
  view (handleCheckIn noon_2024_05_15 "A" 2 stTwoDays) = view stTwoDays /\
  users (snd (handleCheckIn noon_2024_05_15 "A" 2 stTwoDays))
  = users (snd stTwoDays).
Proof.
  split; [reflexivity |]. split; [reflexivity |]. split; [lia |].
  apply (edit_and_save_unchanged noon_2024_05_15 "A" 2 stTwoDays);
    [reflexivity | reflexivity | lia].
Defined.

Section RemoveMore.

Lemma filter_others_id name (l : list string) :
  ~ In name l -> filter (fun u => negb (String.eqb u name)) l = l.
Proof.
  induction l as [| x l IH]; simpl; auto.
  intros N. destruct (String.eqb_spec x name) as [-> | _]; simpl.
  - exfalso. auto.
  - rewrite IH; auto.
Qed.

Lemma remove_fold_id r name ks : forall h,
  (forall date l, In date ks -> oget date r = Some l ->
                  truthy (oget name (cell h l)) = false) ->
  fold_left (removeFromDay r name) ks h = h.
Proof.
  induction ks as [| k ks IH]; intros h H; simpl; auto.
  assert (E : removeFromDay r name h k = h).
  { unfold removeFromDay. destruct (oget k r) as [l |] eqn:G; auto.
    rewrite (H k l); simpl; auto. }
  rewrite E. apply IH. intros date l I. apply H. simpl. auto.
Qed.

Lemma handleRemoveUser_absent name st :
  ~ In name (users (snd st)) ->
  (forall date, checkedIn (view st) date name = false) ->
  handleRemoveUser true name st = st.
Proof.
  destruct st as [h d]. simpl. intros N F. unfold handleRemoveUser.
  rewrite filter_others_id by auto. rewrite remove_fold_id.
  - destruct d; reflexivity.
  - intros date l _ G. specialize (F date). unfold checkedIn, view in F.
    simpl in F. rewrite oget_deref, G in F. exact F.
Qed.

(** X9: removing a name that is not a member and has no (truthy) entry
    changes nothing at all. *)
Theorem remove_absent_member_changes_nothing name st :
  ~ In name (users (snd st)) ->
  (forall date, checkedIn (view st) date name = false) ->
  handleRemoveUser true name st = st.
Proof. apply handleRemoveUser_absent. Qed.

(** X10: [handleRemoveUser] touches nobody else: the other members stay,
    in their order; the dates of the store stay; and every entry of
    every other name is as before. *)
Theorem remove_member_keeps_the_others name st :
  wfState st = true ->
  (forall m, m <> name ->
     (In m (users (snd (handleRemoveUser true name st)))
      <-> In m (users (snd st)))) /\
  okeys (view (handleRemoveUser true name st)) = okeys (view st) /\
  (forall m date, m <> name ->
     entry (view (handleRemoveUser true name st)) date m
     = entry (view st) date m).
Proof.
  intros W. pose proof (wfState_spec st W) as [N _]. repeat split.
  - destruct st as [h d]. simpl. rewrite filter_In. tauto.
  - destruct st as [h d]. simpl. rewrite filter_In. intros I. split; auto.
    destruct (String.eqb_spec m name); [congruence | reflexivity].
  - rewrite handleRemoveUser_view_gen by auto. unfold okeys.
    now rewrite map_map.
  - intros m date D. rewrite handleRemoveUser_view_gen by auto.
    now apply entry_map_scrub.
Qed.

(** X11: removing the same name a second time changes nothing more. *)
Theorem remove_member_twice name st :
  wfState st = true ->
  view (handleRemoveUser true name (handleRemoveUser true name st))
  = view (handleRemoveUser true name st) /\
  users (snd (handleRemoveUser true name (handleRemoveUser true name st)))
  = users (snd (handleRemoveUser true name st)).
Proof.
  intros W. pose proof (wfState_spec st W) as [N _]. split.
  - rewrite (handleRemoveUser_view_gen name (handleRemoveUser true name st)).
    + rewrite handleRemoveUser_view_gen by auto. rewrite map_map. simpl.
      apply map_ext. intros p. now rewrite scrub_idem.
    + destruct st as [h d]. exact N.
  - destruct st as [h d]. simpl. apply filter_others_id.
    rewrite filter_In. intros [_ H]. now rewrite String.eqb_refl in H.
Qed.

(** X12: adding a new name that has no entries and removing it again
    gives back the state as it was. *)
Theorem add_then_remove_round_trip name st :
  ~ In name (users (snd st)) ->
  (forall date, checkedIn (view st) date name = false) ->
  handleAddUser name st
    = (None, (fst st, mkData (users (snd st) ++ [name])%list
                             (records (snd st)))) /\
  handleRemoveUser true name (snd (handleAddUser name st)) = st.
Proof.
  destruct st as [h d]. cbn [fst snd]. intros N F.
  assert (A : handleAddUser name (h, d)
              = (None, (h, mkData (users d ++ [name])%list (records d)))).
  { unfold handleAddUser. apply includes_not_In in N. now rewrite N. }
  split; [exact A |]. rewrite A. cbn [fst snd]. unfold handleRemoveUser.
  cbn [users records].
  rewrite remove_fold_id.
  - rewrite filter_app, filter_others_id by auto. simpl.
    rewrite String.eqb_refl. simpl. rewrite List.app_nil_r.
    destruct d; reflexivity.
  - intros date l _ G. specialize (F date). unfold checkedIn, view in F.
    simpl in F. rewrite oget_deref in F.
    simpl in G. rewrite G in F. exact F.
Qed.

End RemoveMore.

Lemma remove_absent_member_changes_nothing_witness :
  ~ In "Z" (users (snd stTwoDays)) /\
  (forall date, checkedIn (view stTwoDays) date "Z" = false) /\
  handleRemoveUser true "Z" stTwoDays = stTwoDays.
Proof.
  assert (N : ~ In "Z" (users (snd stTwoDays))).
  { simpl. intros [H | [H | []]]; discriminate. }
  assert (F : forall date, checkedIn (view stTwoDays) date "Z" = false).
  { intros date. unfold checkedIn. simpl.
    destruct (String.eqb date "2024-05-14"); [reflexivity |].
    destruct (String.eqb date "2024-05-15"); reflexivity. }
  split; [exact N |]. split; [exact F |].
  apply (remove_absent_member_changes_nothing "Z" stTwoDays N F).
Defined.

Lemma remove_member_keeps_the_others_witness :
  wfState stTwoDays = true /\
  (forall m, m <> "A" ->
     (In m (users (snd (handleRemoveUser true "A" stTwoDays)))
      <-> In m (users (snd stTwoDays)))) /\
  okeys (view (handleRemoveUser true "A" stTwoDays)) = okeys (view stTwoDays) /\
  (forall m date, m <> "A" ->
     entry (view (handleRemoveUser true "A" stTwoDays)) date m
     = entry (view stTwoDays) date m).
Proof.
  split; [reflexivity |].
  apply (remove_member_keeps_the_others "A" stTwoDays). reflexivity.
Defined.

Lemma remove_member_twice_witness :
  wfState stTwoDays = true /\
  view (handleRemoveUser true "A" (handleRemoveUser true "A" stTwoDays))
  = view (handleRemoveUser true "A" stTwoDays) /\
  users (snd (handleRemoveUser true "A"
                (handleRemoveUser true "A" stTwoDays)))
  = users (snd (handleRemoveUser true "A" stTwoDays)).
Proof.
  split; [reflexivity |].
  apply (remove_member_twice "A" stTwoDays). reflexivity.
Defined.

Lemma add_then_remove_round_trip_witness :
  ~ In "Z" (users (snd stTwoDays)) /\
  (forall date, checkedIn (view stTwoDays) date "Z" = false) /\
  handleAddUser "Z" stTwoDays
    = (None, (fst stTwoDays,
              mkData (users (snd stTwoDays) ++ ["Z"])%list
                     (records (snd stTwoDays)))) /\
  handleRemoveUser true "Z" (snd (handleAddUser "Z" stTwoDays)) = stTwoDays.
Proof.
  assert (N : ~ In "Z" (users (snd stTwoDays))).
  { simpl. intros [H | [H | []]]; discriminate. }
  assert (F : forall date, checkedIn (view stTwoDays) date "Z" = false).
  { intros date. unfold checkedIn. simpl.
    destruct (String.eqb date "2024-05-14"); [reflexivity |].
    destruct (String.eqb date "2024-05-15"); reflexivity. }
  split; [exact N |]. split; [exact F |].
  apply (add_then_remove_round_trip "Z" stTwoDays N F).
Defined.

(* ================================================================== *)
(** * What every sequence of events keeps *)

Section EntriesAll.

Variable P : string * Z -> bool.

Lemma all_oset_rec user c rec :
  P (user, c) = true -> forallb P rec = true ->
  forallb P (oset user c rec) = true.
Proof.
  intros Pc F. rewrite forallb_forall in *. intros q I.
  apply In_oset_inv in I. destruct I as [-> | I]; auto.
Qed.

Lemma all_oset (r : Records) k rec :
  forallb (fun p => forallb P (snd p)) r = true ->
  forallb P rec = true ->
  forallb (fun p => forallb P (snd p)) (oset k rec r) = true.
Proof.
  intros F R. rewrite forallb_forall in F. apply forallb_forall.
  intros q I. apply In_oset_inv in I. destruct I as [-> | I]; auto.
Qed.

Lemma all_todays now (r : Records) :
  forallb (fun p => forallb P (snd p)) r = true ->
  forallb P (DailyReport_todaysRecords now r) = true.
Proof.
  intros F. unfold DailyReport_todaysRecords.
  destruct (oget (getTodayDateString now) r) as [rec |] eqn:E; auto.
  apply oget_Some_In in E. rewrite forallb_forall in F. apply (F _ E).
Qed.


Lemma all_handleCheckIn now user c st :
  closed st = true -> P (user, c) = true ->
  forallb (fun p => forallb P (snd p)) (view st) = true ->
  forallb (fun p => forallb P (snd p))
          (view (handleCheckIn now user c st)) = true.
Proof.
  intros C Pc F. rewrite view_handleCheckIn by auto.
  apply all_oset; auto. apply all_oset_rec; auto. now apply all_todays.
Qed.


End EntriesAll.

Lemma view_handleAddUser name st : view (snd (handleAddUser name st)) = view st.
Proof.
  destruct st as [h d]. unfold handleAddUser.
  destruct (includes (users d) name); reflexivity.
Qed.

Lemma wfState_closed st : wfState st = true -> closed st = true.
Proof. intros W. now apply wfState_spec in W. Qed.


Lemma NoDup_users_dispatch now ev st :
  NoDup (users (snd st)) -> NoDup (users (snd (snd (dispatch now ev st)))).
Proof.
  intros N. destruct ev as [u c | es | n | n b]; simpl.
  - unfold CheckInForm_handleSubmit. destruct c as [c |]; auto.
    destruct (String.eqb u "" || (c <=? 0)); simpl; auto.
    now rewrite handleCheckIn_users.
  - unfold DailyReport_handleSave. destruct es as [[u c] |]; auto.
    destruct (0 <? _); simpl; auto. now rewrite handleCheckIn_users.
  - destruct st as [h d]. unfold handleAddUser.
    destruct (includes (users d) n) eqn:I; simpl in *; auto.
    apply includes_not_In in I.
    apply NoDup_app; [exact N | repeat constructor; simpl; tauto |].
    intros x Hx [<- | []]. auto.
  - destruct b; auto. destruct st as [h d]. simpl in *.
    now apply NoDup_filter.
Qed.

Lemma okeys_view_dispatch now ev st k :
  In k (okeys (view (snd (dispatch now ev st)))) ->
  k = getTodayDateString now \/ In k (okeys (view st)).
Proof.
  assert (K : forall u c, In k (okeys (view (handleCheckIn now u c st))) ->
              k = getTodayDateString now \/ In k (okeys (view st))).
  { intros u c. destruct st as [h d]. unfold view. simpl.
    rewrite !okeys_deref, okeys_oset_iff. tauto. }
  destruct ev as [u c | es | n | n b]; simpl.
  - unfold CheckInForm_handleSubmit. destruct c as [c |]; auto.
    destruct (String.eqb u "" || (c <=? 0)); simpl; eauto.
  - unfold DailyReport_handleSave. destruct es as [[u c] |]; auto.
    destruct (0 <? _); simpl; eauto.
  - rewrite view_handleAddUser. auto.
  - destruct b; auto. destruct st as [h d]. unfold view. simpl.
    rewrite !okeys_deref. auto.
Qed.

Section Run.

Lemma run_cons e evs st :
  run (e :: evs) st = run evs (snd (dispatch (fst e) (snd e) st)).
Proof. reflexivity. Qed.

(** X13: the member list stays free of duplicates, whatever the user
    does. *)
Theorem members_stay_unique evs : forall st,
  NoDup (users (snd st)) -> NoDup (users (snd (run evs st))).
Proof.
  induction evs as [| e evs IH]; intros st N; auto.
  rewrite run_cons. apply IH. now apply NoDup_users_dispatch.
Qed.

Lemma wfState_run evs : forall st,
  wfState st = true -> wfState (run evs st) = true.
Proof.
  induction evs as [| e evs IH]; intros st W; auto.
  rewrite run_cons. apply IH. now apply wfState_dispatch.
Qed.


(** X15: the dates of the store stay well-formed date keys, as long as
    the clock shows a year of four digits at every event: the only key
    ever written is today's. *)
Theorem date_keys_stay_well_formed evs : forall st,
  forallb (fun e => fourDigitYear (fst e)) evs = true ->
  forallb isDateKey (okeys (view st)) = true ->
  forallb isDateKey (okeys (view (run evs st))) = true.
Proof.
  induction evs as [| e evs IH]; intros st Y F; auto.
  simpl in Y. apply andb_true_iff in Y. destruct Y as [Ye Y].
  rewrite run_cons. apply IH; auto.
  apply forallb_forall. intros k I.
  apply okeys_view_dispatch in I. destruct I as [-> | I].
  - now apply today_key_is_date_key.
  - rewrite forallb_forall in F. auto.
Qed.

End Run.

Lemma members_stay_unique_witness :
  NoDup (users (snd stTwoDays)) /\
  NoDup (users (snd (run evsSample stTwoDays))).
Proof.
  assert (N : NoDup (users (snd stTwoDays))).
  { apply distinct_NoDup. reflexivity. }
  split; [exact N |]. apply (members_stay_unique evsSample stTwoDays N).
Defined.


Lemma date_keys_stay_well_formed_witness :
  forallb (fun e => fourDigitYear (fst e)) evsSample = true /\
  forallb isDateKey (okeys (view stTwoDays)) = true /\
  forallb isDateKey (okeys (view (run evsSample stTwoDays))) = true.
Proof.
  split; [reflexivity |]. split; [reflexivity |].
  apply (date_keys_stay_well_formed evsSample stTwoDays); reflexivity.
Defined.

Section Membership.

Lemma membersOnly_weaken users users' (r : Records) :
  (forall u, In u users -> In u users') ->
  membersOnly users r = true -> membersOnly users' r = true.
Proof.
  intros S F. unfold membersOnly in *. rewrite forallb_forall in *.
  intros p I. specialize (F _ I). rewrite forallb_forall in *.
  intros q Iq. apply includes_In, S, includes_In. auto.
Qed.

Lemma membersOnly_handleCheckIn now user c st :
  closed st = true -> In user (users (snd st)) ->
  membersOnly (users (snd st)) (view st) = true ->
  membersOnly (users (snd (handleCheckIn now user c st)))
              (view (handleCheckIn now user c st)) = true.
Proof.
  intros C I F. rewrite handleCheckIn_users. unfold membersOnly.
  apply (all_handleCheckIn (fun q => includes (users (snd st)) (fst q)));
    auto.
  simpl. now apply includes_In.
Qed.

Lemma membersOnly_handleRemoveUser name st :
  wfState st = true -> countsNonzero (view st) = true ->
  membersOnly (users (snd st)) (view st) = true ->
  membersOnly (users (snd (handleRemoveUser true name st)))
              (view (handleRemoveUser true name st)) = true.
Proof.
  intros W Z0 F. pose proof (wfState_spec st W) as [N _].
  rewrite handleRemoveUser_view_gen by auto.
  unfold membersOnly, countsNonzero in *.
  rewrite forallb_forall in *. intros p I.
  apply in_map_iff in I. destruct I as (q & <- & I). simpl.
  specialize (F _ I). specialize (Z0 _ I). rewrite forallb_forall in F.
  apply forallb_forall. intros e Ie.
  apply includes_In. destruct st as [h d]. simpl. apply filter_In. split.
  - apply includes_In, F. eapply In_scrub; eauto.
  - destruct (String.eqb_spec (fst e) name) as [E | _]; auto.
    exfalso. apply (in_map fst) in Ie. rewrite E in Ie.
    apply (scrub_clears name (snd q) Z0). exact Ie.
Qed.

(** X16: as long as check-ins are made for members, every entry of the
    store belongs to a member, whatever else the user does: removing a
    member takes the member's entries along, adding one takes nothing
    away. *)
Theorem entries_stay_with_members now ev st :
  wfState st = true ->
  countsNonzero (view st) = true ->
  membersOnly (users (snd st)) (view st) = true ->
  (forall u, checksIn ev = Some u -> In u (users (snd st))) ->
  membersOnly (users (snd (snd (dispatch now ev st))))
              (view (snd (dispatch now ev st))) = true.
Proof.
  intros W Z0 F M. pose proof (wfState_closed st W) as C.
  destruct ev as [u c | es | n | n b]; simpl.
  - unfold CheckInForm_handleSubmit. destruct c as [c |]; auto.
    destruct (String.eqb u "" || (c <=? 0)); simpl; auto.
    apply membersOnly_handleCheckIn; auto.
  - unfold DailyReport_handleSave. destruct es as [[u c] |]; auto.
    destruct (0 <? _); simpl; auto.
    apply membersOnly_handleCheckIn; auto.
  - rewrite view_handleAddUser.
    apply (membersOnly_weaken (users (snd st))); auto.
    intros u I. destruct st as [h d]. unfold handleAddUser.
    destruct (includes (users d) n); simpl in *; auto.
    apply in_or_app. auto.
  - destruct b; auto. now apply membersOnly_handleRemoveUser.
Qed.

(** X17: the check-in form keeps a removed member selected.  After the
    selected member is removed the form's effect leaves the selection as
    it is, and the next submission with a count of at least 1 is stored
    without an alert, under a name that is no longer a member. *)
Theorem removed_member_stays_selected now user c st :
  user <> "" -> 1 <= c ->
  CheckInForm_effect (users (snd (handleRemoveUser true user st))) user
    = user /\
  CheckInForm_handleSubmit now user (Some c) (handleRemoveUser true user st)
    = (None, handleCheckIn now user c (handleRemoveUser true user st)) /\
  entry (view (handleCheckIn now user c (handleRemoveUser true user st)))
        (getTodayDateString now) user = Some c /\
  ~ In user (users (snd (handleCheckIn now user c
                           (handleRemoveUser true user st)))) /\
  membersOnly
    (users (snd (handleCheckIn now user c (handleRemoveUser true user st))))
    (view (handleCheckIn now user c (handleRemoveUser true user st)))
  = false.
Proof.
  intros N P.
  assert (U : ~ In user (users (snd (handleCheckIn now user c
                                       (handleRemoveUser true user st))))).
  { rewrite handleCheckIn_users. destruct st as [h d]. simpl.
    rewrite filter_In. intros [_ H]. now rewrite String.eqb_refl in H. }
  pose proof (handleCheckIn_entry now user c (handleRemoveUser true user st))
    as E.
  repeat split; auto.
  - unfold CheckInForm_effect.
    destruct (String.eqb_spec user ""); [congruence | reflexivity].
  - unfold CheckInForm_handleSubmit.
    destruct (String.eqb_spec user ""); [congruence |].
    destruct (Z.leb_spec c 0); [lia | reflexivity].
  - destruct (membersOnly _ _) eqn:F; auto. exfalso. apply U.
    unfold membersOnly in F. rewrite forallb_forall in F.
    unfold entry in E.
    destruct (oget (getTodayDateString now) _) as [rec |] eqn:G;
      [| discriminate].
    apply oget_Some_In in G. specialize (F _ G). simpl in F.
    rewrite forallb_forall in F. apply oget_Some_In in E.
    specialize (F _ E). simpl in F. now apply includes_In.
Qed.

End Membership.

Lemma entries_stay_with_members_witness :
  wfState stTwoDays = true /\
  countsNonzero (view stTwoDays) = true /\
  membersOnly (users (snd stTwoDays)) (view stTwoDays) = true /\
  (forall u, checksIn (RemoveUser "A" true) = Some u ->
             In u (users (snd stTwoDays))) /\
  membersOnly
    (users (snd (snd (dispatch noon_2024_05_15 (RemoveUser "A" true)
                        stTwoDays))))
    (view (snd (dispatch noon_2024_05_15 (RemoveUser "A" true) stTwoDays)))
  = true.
Proof.
  split; [reflexivity |]. split; [reflexivity |]. split; [reflexivity |].
  split; [intros u H; discriminate |].
  apply (entries_stay_with_members noon_2024_05_15 (RemoveUser "A" true)
           stTwoDays); try reflexivity.
  intros u H. discriminate.
Defined.

Lemma removed_member_stays_selected_witness :
  "A" <> "" /\ 1 <= 3 /\
  CheckInForm_effect (users (snd (handleRemoveUser true "A" stTwoDays))) "A"
    = "A" /\
  CheckInForm_handleSubmit noon_2024_05_15 "A" (Some 3)
    (handleRemoveUser true "A" stTwoDays)
    = (None, handleCheckIn noon_2024_05_15 "A" 3
               (handleRemoveUser true "A" stTwoDays)) /\
  entry (view (handleCheckIn noon_2024_05_15 "A" 3
                 (handleRemoveUser true "A" stTwoDays)))
        (getTodayDateString noon_2024_05_15) "A" = Some 3 /\
  ~ In "A" (users (snd (handleCheckIn noon_2024_05_15 "A" 3
                          (handleRemoveUser true "A" stTwoDays)))) /\
  membersOnly
    (users (snd (handleCheckIn noon_2024_05_15 "A" 3
                   (handleRemoveUser true "A" stTwoDays))))
    (view (handleCheckIn noon_2024_05_15 "A" 3
             (handleRemoveUser true "A" stTwoDays)))
  = false.
Proof.
  split; [discriminate |]. split; [lia |].
  apply (removed_member_stays_selected noon_2024_05_15 "A" 3 stTwoDays);
    [discriminate | lia].
Defined.

(* ================================================================== *)
(** * The leaderboard after a check-in *)

Section ReportMore.





End ReportMore.


(* ================================================================== *)
(** * [handleExportCSV] *)

Section ExportCSV.

Lemma append_assoc (a b c : string) : (a ++ b) ++ c = a ++ (b ++ c).
Proof. induction a; simpl; congruence. Qed.

Lemma append_nil_r (a : string) : a ++ "" = a.
Proof. induction a; simpl; congruence. Qed.

Lemma append_same_l (a b : string) : a ++ b = a -> b = "".
Proof.
  intros E. rewrite <- (append_nil_r a) in E at 2.
  now apply append_inj_l in E.
Qed.

Lemma ascii_compare_lt_trans a b c :
  Ascii.compare a b = Lt -> Ascii.compare b c = Lt -> Ascii.compare a c = Lt.
Proof.
  unfold Ascii.compare. rewrite !N.compare_lt_iff. apply N.lt_trans.
Qed.

Lemma string_compare_lt_trans a : forall b c,
  String.compare a b = Lt -> String.compare b c = Lt ->
  String.compare a c = Lt.
Proof.
  induction a as [| x a IH]; intros [| y b] [| z c]; simpl;
    try discriminate; auto.
  destruct (Ascii.compare x y) eqn:Exy; try discriminate;
    destruct (Ascii.compare y z) eqn:Eyz; try discriminate; intros H1 H2.
  - apply Ascii.compare_eq_iff in Exy, Eyz. subst.
    replace (Ascii.compare z z) with Eq; [eauto |].
    symmetry. unfold Ascii.compare. apply N.compare_refl.
  - apply Ascii.compare_eq_iff in Exy. subst. now rewrite Eyz.
  - apply Ascii.compare_eq_iff in Eyz. subst. now rewrite Exy.
  - now rewrite (ascii_compare_lt_trans x y z).
Qed.

Lemma string_compare_refl a : String.compare a a = Eq.
Proof.
  induction a as [| x a IH]; simpl; auto.
  replace (Ascii.compare x x) with Eq; auto.
  symmetry. unfold Ascii.compare. apply N.compare_refl.
Qed.

Lemma leb_refl a : String.leb a a = true.
Proof. unfold String.leb. now rewrite string_compare_refl. Qed.

Lemma leb_trans a b c :
  String.leb a b = true -> String.leb b c = true -> String.leb a c = true.
Proof.
  unfold String.leb.
  destruct (String.compare a b) eqn:Eab; try discriminate;
    destruct (String.compare b c) eqn:Ebc; try discriminate; intros _ _.
  - apply String.compare_eq_iff in Eab, Ebc. subst.
    now rewrite string_compare_refl.
  - apply String.compare_eq_iff in Eab. subst. now rewrite Ebc.
  - apply String.compare_eq_iff in Ebc. subst. now rewrite Eab.
  - now rewrite (string_compare_lt_trans a b c).
Qed.

Lemma compareStrings_le a b :
  compareStrings a b <= 0 -> String.leb a b = true.
Proof.
  unfold compareStrings, String.leb.
  destruct (String.compare a b); auto; lia.
Qed.

Lemma compareStrings_gt a b :
  0 < compareStrings a b -> String.leb b a = true.
Proof.
  unfold compareStrings, String.leb. rewrite (String.compare_antisym b a).
  destruct (String.compare a b); simpl; auto; lia.
Qed.

Lemma insertBy_compareStrings_sorted x l :
  StronglySorted (fun a b => String.leb a b = true) l ->
  StronglySorted (fun a b => String.leb a b = true)
                 (insertBy compareStrings x l).
Proof.
  induction 1 as [| y l S IH F]; simpl.
  - repeat constructor.
  - destruct (Z.leb_spec (compareStrings x y) 0) as [L | G].
    + apply compareStrings_le in L. constructor.
      * now constructor.
      * constructor; auto.
        eapply Forall_impl; [| exact F].
        intros z Hz. now apply (leb_trans x y z).
    + apply compareStrings_gt in G. constructor; auto.
      rewrite (insertBy_perm compareStrings x l). constructor; auto.
Qed.

Lemma sortBy_compareStrings_sorted l :
  StronglySorted (fun a b => String.leb a b = true)
                 (sortBy compareStrings l).
Proof.
  induction l; simpl;
    [constructor | now apply insertBy_compareStrings_sorted].
Qed.

Lemma exportDay_lines date rec csv :
  exportDay date rec csv
  = csv ++ csvLines (map (fun p => (date, fst p, snd p)) rec).
Proof.
  unfold exportDay. revert csv.
  induction rec as [| p rec IH]; intros csv; simpl.
  - now rewrite append_nil_r.
  - rewrite IH. now rewrite append_assoc.
Qed.

Lemma csvLines_app a b : csvLines (a ++ b)%list = csvLines a ++ csvLines b.
Proof.
  induction a as [| e a IH]; simpl; auto.
  rewrite IH. now rewrite !append_assoc.
Qed.

Lemma csvLines_nil rows : csvLines rows = "" -> rows = [].
Proof.
  destruct rows as [| e rows]; auto. simpl. intros E.
  apply (f_equal String.length) in E.
  rewrite !append_length in E. simpl in E. lia.
Qed.

(** [csvContent] is the header followed by the lines of the entries of
    the current month. *)
Lemma csvContent_lines now records :
  handleExportCSV_csvContent now records
  = csvHeader
    ++ csvLines (entriesOfMonth records
                   (getMonthFromDateString (getTodayDateString now))).
Proof.
  unfold handleExportCSV_csvContent, entriesOfMonth.
  generalize (sortBy compareStrings (okeys records)) as dates.
  generalize csvHeader as csv.
  intros csv dates. revert csv.
  induction dates as [| date dates IH]; intros csv; simpl.
  - now rewrite append_nil_r.
  - rewrite IH, csvLines_app, <- append_assoc. f_equal.
    destruct (String.eqb _ _); [| now rewrite append_nil_r].
    unfold entriesOn. destruct (oget date records) as [rec |].
    + apply exportDay_lines.
    + now rewrite append_nil_r.
Qed.

Lemma In_entriesOn records d u c e :
  In (d, u, c) (entriesOn records e) ->
  d = e /\ exists rec, oget d records = Some rec /\ In (u, c) rec.
Proof.
  unfold entriesOn. destruct (oget e records) as [rec |] eqn:E; [| easy].
  intros I. apply in_map_iff in I. destruct I as ([u' c'] & [= <- <- <-] & I).
  split; auto. exists rec. auto.
Qed.

Lemma In_entriesOfMonth records month d u c :
  wfRecords records = true ->
  In (d, u, c) (entriesOfMonth records month)
  <-> getMonthFromDateString d = month /\ entry records d u = Some c.
Proof.
  intros W. destruct (wfRecords_spec records W) as [N F].
  rewrite Forall_forall in F.
  unfold entriesOfMonth, entry. rewrite in_flat_map. split.
  - intros (e & _ & I).
    destruct (String.eqb_spec (getMonthFromDateString e) month) as [M | M];
      [| easy].
    apply In_entriesOn in I. destruct I as (-> & rec & G & I).
    split; auto. rewrite G.
    apply oget_of_In; auto.
    apply (F (e, rec)). now apply oget_Some_In.
  - intros [M G]. destruct (oget d records) as [rec |] eqn:E; [| easy].
    exists d. split.
    + eapply Permutation_in; [symmetry; apply sortBy_perm |].
      eapply oget_In_keys; eauto.
    + rewrite M, String.eqb_refl. unfold entriesOn. rewrite E.
      apply oget_Some_In in G.
      apply (in_map (fun p => (d, fst p, snd p))) in G. exact G.
Qed.

Lemma NoDup_entriesOn records date :
  wfRecords records = true -> NoDup (entriesOn records date).
Proof.
  intros W. destruct (wfRecords_spec records W) as [_ F].
  rewrite Forall_forall in F. unfold entriesOn.
  destruct (oget date records) as [rec |] eqn:E; [| constructor].
  apply oget_Some_In in E. apply F in E. simpl in E.
  apply (NoDup_map_inv (fun e => snd (fst e))).
  rewrite map_map. simpl. exact E.
Qed.

Lemma NoDup_flat_map {A B} (f : A -> list B) l :
  NoDup l ->
  (forall a, In a l -> NoDup (f a)) ->
  (forall a a' b, In b (f a) -> In b (f a') -> a = a') ->
  NoDup (flat_map f l).
Proof.
  intros N. induction N as [| a l Ha N IH]; intros D J; simpl.
  - constructor.
  - apply NoDup_app.
    + apply D. now left.
    + apply IH; auto. intros x Hx. apply D. now right.
    + intros b Hb Hb'. apply in_flat_map in Hb'.
      destruct Hb' as (a' & Ia' & Hb'').
      assert (a = a') by eauto. subst. contradiction.
Qed.

Lemma NoDup_entriesOfMonth records month :
  wfRecords records = true -> NoDup (entriesOfMonth records month).
Proof.
  intros W. destruct (wfRecords_spec records W) as [N _].
  unfold entriesOfMonth. apply NoDup_flat_map.
  - eapply Permutation_NoDup; [symmetry; apply sortBy_perm | exact N].
  - intros a _. destruct (String.eqb _ _); [| constructor].
    now apply NoDup_entriesOn.
  - intros a a' [[d u] c] I I'.
    destruct (String.eqb (getMonthFromDateString a) month); [| easy].
    destruct (String.eqb (getMonthFromDateString a') month); [| easy].
    apply In_entriesOn in I, I'. destruct I as [<- _], I' as [<- _]. auto.
Qed.

Lemma sorted_flat_map (f : string -> list (string * string * Z)) l :
  (forall a e, In e (f a) -> fst (fst e) = a) ->
  StronglySorted (fun a b => String.leb a b = true) l ->
  StronglySorted byDate (flat_map f l).
Proof.
  intros D S. induction S as [| a l S IH F]; simpl; [constructor |].
  assert (G : forall e, In e (f a) ->
                Forall (byDate e) (flat_map f l)).
  { intros e He. apply Forall_forall. intros e' He'.
    apply in_flat_map in He'. destruct He' as (a' & Ia' & He').
    unfold byDate. rewrite (D a e He), (D a' e' He').
    rewrite Forall_forall in F. auto. }
  assert (H : forall k, (forall e, In e k -> In e (f a)) ->
                StronglySorted byDate (k ++ flat_map f l)%list).
  { induction k as [| e k IHk]; intros K; simpl; auto.
    constructor.
    - apply IHk. intros; apply K; now right.
    - apply Forall_app. split.
      + apply Forall_forall. intros e' He'. unfold byDate.
        rewrite (D a e), (D a e'); auto using leb_refl.
        * apply K. now right.
        * apply K. now left.
      + apply G, K. now left. }
  apply H. auto.
Qed.

Lemma sorted_entriesOfMonth records month :
  StronglySorted byDate (entriesOfMonth records month).
Proof.
  unfold entriesOfMonth. apply sorted_flat_map.
  - intros a [[d u] c] I.
    destruct (String.eqb (getMonthFromDateString a) month); [| easy].
    apply In_entriesOn in I. simpl. tauto.
  - apply sortBy_compareStrings_sorted.
Qed.

(** X19: the exported text is the header line followed by one line per
    entry of the current month: each pair of a date of the month and a
    name with an entry on it has exactly one line, with the stored count,
    and the lines are in ascending order of their date keys. *)
Theorem export_has_the_entries_of_the_month now records :
  wfRecords records = true ->
  exists rows,
    handleExportCSV_csvContent now records = csvHeader ++ csvLines rows /\
    NoDup rows /\
    (forall d u c,
       In (d, u, c) rows
       <-> getMonthFromDateString d
           = getMonthFromDateString (getTodayDateString now)
           /\ entry records d u = Some c) /\
    StronglySorted byDate rows.
Proof.
  intros W.
  exists (entriesOfMonth records
            (getMonthFromDateString (getTodayDateString now))).
  split; [apply csvContent_lines |].
  split; [now apply NoDup_entriesOfMonth |].
  split; [| apply sorted_entriesOfMonth].
  intros d u c. now apply In_entriesOfMonth.
Qed.

(** X20: the exported text is the header line alone exactly when the
    store has no entry on a date of the current month. *)
Theorem export_of_an_empty_month now records :
  wfRecords records = true ->
  handleExportCSV_csvContent now records = csvHeader
  <-> forall d u,
        getMonthFromDateString d
        = getMonthFromDateString (getTodayDateString now) ->
        entry records d u = None.
Proof.
  intros W. rewrite csvContent_lines. split.
  - intros E d u M. apply append_same_l, csvLines_nil in E.
    destruct (entry records d u) as [c |] eqn:G; auto.
    assert (I : In (d, u, c)
                  (entriesOfMonth records
                     (getMonthFromDateString (getTodayDateString now)))).
    { apply In_entriesOfMonth; auto. }
    rewrite E in I. destruct I.
  - intros H.
    destruct (entriesOfMonth records
                (getMonthFromDateString (getTodayDateString now)))
      as [| [[d u] c] rows] eqn:E.
    + unfold csvLines. cbn [fold_right]. apply append_nil_r.
    + assert (I : In (d, u, c)
                    (entriesOfMonth records
                       (getMonthFromDateString (getTodayDateString now)))).
      { rewrite E. now left. }
      apply In_entriesOfMonth in I; auto. destruct I as [M G].
      rewrite (H d u M) in G. discriminate.
Qed.

End ExportCSV.

Lemma export_has_the_entries_of_the_month_witness :
  wfRecords recThreeDays = true /\
  exists rows,
    handleExportCSV_csvContent noon_2024_05_15 recThreeDays
    = csvHeader ++ csvLines rows /\
    NoDup rows /\
    (forall d u c,
       In (d, u, c) rows
       <-> getMonthFromDateString d
           = getMonthFromDateString (getTodayDateString noon_2024_05_15)
           /\ entry recThreeDays d u = Some c) /\
    StronglySorted byDate rows.
Proof.
  split; [reflexivity |].
  apply (export_has_the_entries_of_the_month noon_2024_05_15 recThreeDays).
  reflexivity.
Defined.

Lemma export_of_an_empty_month_witness :
  wfRecords [("2024-04-30", [("B", 9)])] = true /\
  (handleExportCSV_csvContent noon_2024_05_15 [("2024-04-30", [("B", 9)])]
   = csvHeader
   <-> forall d u,
         getMonthFromDateString d
         = getMonthFromDateString (getTodayDateString noon_2024_05_15) ->
         entry [("2024-04-30", [("B", 9)])] d u = None).
Proof.
  split; [reflexivity |].
  apply (export_of_an_empty_month noon_2024_05_15
           [("2024-04-30", [("B", 9)])]).
  reflexivity.
Defined.

(* ================================================================== *)
(** * [getInitialData] *)

(** X21: what the application saves is what it loads: the saved state of
    [App] passes the validation, whatever its members and records. *)
Theorem saved_data_is_loaded (users : list string) (records : Records) :
  getInitialData (Item (dataJSON users records)) = dataJSON users records.
Proof. reflexivity. Qed.

(** X22: whatever the storage holds, the initial state has an array as
    [users] and a value of type object as [records]. *)
Theorem initial_data_has_the_shape (stored : Stored) :
  Array_isArray (prop "users" (getInitialData stored)) = true /\
  typeofObject (prop "records" (getInitialData stored)) = true.
Proof.
  destruct stored as [| | | | data]; try (split; reflexivity).
  destruct data as [| b | n | s | items | props]; try (split; reflexivity).
  unfold getInitialData.
  destruct (Array_isArray (prop "users" (JObj props))
            && typeofObject (prop "records" (JObj props))) eqn:V.
  - now apply andb_true_iff in V.
  - split; reflexivity.
Qed.
